(** * dataset_importer: ClickHouse dataset importer

    A shallow embedding of [scripts/dataset_importer.py]: the reader
    ([get_dataframe]), the DDL synthesizer ([get_columns_from_df],
    [generate_clickhouse_ddl]), directory discovery ([get_datasets]) and the
    provisioning loop ([main]), with the ClickHouse client, polars and the
    file system as explicit collaborators. *)

From Stdlib Require Import List String Ascii Bool Arith ZArith Lia.
From Stdlib Require Import DecimalString.
Import ListNotations.
Local Open Scope list_scope.
Local Open Scope string_scope.

(* ================================================================== *)
(** ** Python values, exceptions and results *)

(** The values [json.load] returns, which are also the cell values a
    DataFrame holds.  A float is carried by its [repr]. *)
#[local] Unset Elimination Schemes.
Inductive PyVal : Type :=
| PyNone
| PyBool (b : bool)
| PyInt (z : Z)
| PyFloat (repr : string)
| PyStr (s : string)
| PyList (items : list PyVal)
| PyDict (items : list (string * PyVal)).
#[local] Set Elimination Schemes.

Inductive ExnClass : Type :=
| ValueError
| RuntimeError
| FileNotFoundError
| KeyError
| AttributeError
| LibraryError.

(** An exception object: its class and [str(e)]. *)
Record Exn : Type := mkExn { exn_class : ExnClass; exn_str : string }.

(** The outcome of a call: an exception raised ([inl]) or a value ([inr]). *)
Definition Res (A : Type) : Type := (Exn + A)%type.

Abbreviation Raise c msg := (inl (mkExn c msg)) (only parsing).
Abbreviation Ok a := (inr a) (only parsing).

(* ================================================================== *)
(** ** Strings: [str.join], [str.lstrip], [pathlib] names *)

Module Str.

(** [sep.join(l)] *)
Fixpoint join (sep : string) (l : list string) : string :=
  match l with
  | [] => ""
  | [x] => x
  | x :: rest => x ++ sep ++ join sep rest
  end.

(** [s.lstrip(".")] when [c] is the dot *)
Fixpoint lstrip (c : ascii) (s : string) : string :=
  match s with
  | String a rest => if Ascii.eqb a c then lstrip c rest else s
  | EmptyString => s
  end.

(** [s.rfind(c)]: index of the last occurrence, [None] for Python's -1 *)
Fixpoint rfind (c : ascii) (s : string) : option nat :=
  match s with
  | EmptyString => None
  | String a rest =>
      match rfind c rest with
      | Some i => Some (S i)
      | None => if Ascii.eqb a c then Some 0 else None
      end
  end.

Definition skip (n : nat) (s : string) : string :=
  substring n (String.length s - n) s.

Definition of_nat (n : nat) : string :=
  NilEmpty.string_of_uint (Nat.to_uint n).

End Str.

Module PurePath.

(** [Path(p).name]: what follows the last separator. *)
Definition name (p : string) : string :=
  match Str.rfind "/"%char p with
  | Some i => Str.skip (S i) p
  | None => p
  end.

(** The index [i] of [pathlib]'s [suffix] and [stem]:
    [i = name.rfind('.')], used when [0 < i < len(name) - 1]. *)
Definition split_at (nm : string) : option nat :=
  match Str.rfind "."%char nm with
  | Some i =>
      if Nat.ltb 0 i && Nat.ltb i (String.length nm - 1) then Some i
      else None
  | None => None
  end.

Definition suffix (p : string) : string :=
  let nm := name p in
  match split_at nm with
  | Some i => Str.skip i nm
  | None => ""
  end.

Definition stem (p : string) : string :=
  let nm := name p in
  match split_at nm with
  | Some i => substring 0 i nm
  | None => nm
  end.

(** [s.split(sep)] *)
Fixpoint split (sep : ascii) (s : string) : list string :=
  match s with
  | EmptyString => [EmptyString]
  | String a rest =>
      if Ascii.eqb a sep then EmptyString :: split sep rest
      else match split sep rest with
           | [] => [String a EmptyString]
           | x :: xs => String a x :: xs
           end
  end.

(** The number of separators [s] starts with. *)
Fixpoint leading (sep : ascii) (s : string) : nat :=
  match s with
  | String a rest => if Ascii.eqb a sep then S (leading sep rest) else 0
  | EmptyString => 0
  end.

(** The components of a path: empty ones and [.] are dropped. *)
Definition parts (p : string) : list string :=
  filter (fun x => negb (String.eqb x "") && negb (String.eqb x "."))
         (split "/"%char p).

(** The root: none, [/], or [//] for exactly two leading separators. *)
Definition root (p : string) : string :=
  match leading "/"%char p with
  | 0 => ""
  | 2 => "//"
  | _ => "/"
  end.

(** [str(Path(p))] *)
Definition normal (p : string) : string :=
  match root p, parts p with
  | EmptyString, [] => "."
  | r, ps => r ++ Str.join "/" ps
  end.

End PurePath.

(* ================================================================== *)
(** ** DataFrames *)

(** The polars data type classes: what [pl.Int32], [pl.Datetime], ... name. *)
Module Cls.

Inductive t : Type :=
| Int8 | Int16 | Int32 | Int64
| UInt8 | UInt16 | UInt32 | UInt64
| Float32 | Float64
| Decimal | Boolean | Utf8 | Binary
| Date | Time | Datetime | Duration
| Categorical | ListType | Struct | Object | Null | Unknown.

Definition eq_dec (a b : t) : {a = b} + {a <> b}.
Proof. decide equality. Defined.

Definition eqb (a b : t) : bool := if eq_dec a b then true else false.

End Cls.

(** [time_unit] of a [Datetime] *)
Inductive TimeUnit : Type := TU_ns | TU_us | TU_ms.

(** The data types a schema holds: instances.  A [Datetime] carries its
    time unit and its time zone; the parameters of the other parametrised
    types play no part here and are left out. *)
Inductive DataType : Type :=
| Int8 | Int16 | Int32 | Int64
| UInt8 | UInt16 | UInt32 | UInt64
| Float32 | Float64
| Decimal | Boolean | Utf8 | Binary
| Date | Time | Datetime (time_unit : TimeUnit) (time_zone : option string)
| Duration
| Categorical | ListType | Struct | Object | Null | Unknown.

(** [type(x)] *)
Definition class_of (x : DataType) : Cls.t :=
  match x with
  | Int8 => Cls.Int8 | Int16 => Cls.Int16
  | Int32 => Cls.Int32 | Int64 => Cls.Int64
  | UInt8 => Cls.UInt8 | UInt16 => Cls.UInt16
  | UInt32 => Cls.UInt32 | UInt64 => Cls.UInt64
  | Float32 => Cls.Float32 | Float64 => Cls.Float64
  | Decimal => Cls.Decimal | Boolean => Cls.Boolean
  | Utf8 => Cls.Utf8 | Binary => Cls.Binary
  | Date => Cls.Date | Time => Cls.Time
  | Datetime _ _ => Cls.Datetime
  | Duration => Cls.Duration
  | Categorical => Cls.Categorical | ListType => Cls.ListType
  | Struct => Cls.Struct | Object => Cls.Object
  | Null => Cls.Null | Unknown => Cls.Unknown
  end.

(** What [hash] is computed from: a class hashes as itself, an instance
    as its class ([DataType.__hash__]), a [Datetime] instance as the tuple
    of its class, time unit and time zone ([Datetime.__hash__]).  Hashes of
    different things are taken to differ. *)
Inductive Hashed : Type :=
| HashClass (c : Cls.t)
| HashDatetime (time_unit : TimeUnit) (time_zone : option string).

Definition hash_class (k : Cls.t) : Hashed := HashClass k.

Definition hash_dtype (x : DataType) : Hashed :=
  match x with
  | Datetime time_unit time_zone => HashDatetime time_unit time_zone
  | _ => HashClass (class_of x)
  end.

Definition Hashed_eqb (a b : Hashed) : bool :=
  match a, b with
  | HashClass c, HashClass c' => Cls.eqb c c'
  | HashDatetime u z, HashDatetime u' z' =>
      match u, u' with
      | TU_ns, TU_ns | TU_us, TU_us | TU_ms, TU_ms =>
          match z, z' with
          | None, None => true
          | Some a, Some b => String.eqb a b
          | _, _ => false
          end
      | _, _ => false
      end
  | _, _ => false
  end.

(** [x == k] for an instance [x] and a class [k]: [k] is the class of [x]. *)
Definition dtype_eq_class (x : DataType) (k : Cls.t) : bool :=
  Cls.eqb (class_of x) k.

Record Series : Type := mkSeries {
  s_name : string;
  s_dtype : DataType;
  s_values : list PyVal
}.

(** A DataFrame is its columns, in order. *)
Definition DataFrame : Type := list Series.

(** [df.columns] *)
Definition columns (df : DataFrame) : list string := map s_name df.

(** [df.schema[column]] *)
Fixpoint schema_get (df : DataFrame) (column : string) : option DataType :=
  match df with
  | [] => None
  | s :: rest =>
      if String.eqb (s_name s) column then Some (s_dtype s)
      else schema_get rest column
  end.

(** [len(df)] *)
Definition height (df : DataFrame) : nat :=
  match df with
  | [] => 0
  | s :: _ => List.length (s_values s)
  end.

(* ================================================================== *)
(** ** Schema inference and DDL synthesis *)

(** [type_mapping] of [get_columns_from_df]: its keys are classes. *)
Definition type_mapping : list (Cls.t * string) :=
  [ (Cls.Int32, "Int32");
    (Cls.Float32, "Float32");
    (Cls.Utf8, "String");
    (Cls.Datetime, "DateTime") ].

(** [type_mapping[col_type]], [None] when [col_type not in type_mapping]:
    the dict finds a key of the same hash that is equal to [col_type]. *)
Fixpoint mapping_get (m : list (Cls.t * string)) (col_type : DataType)
  : option string :=
  match m with
  | [] => None
  | (k, v) :: rest =>
      if Hashed_eqb (hash_class k) (hash_dtype col_type)
         && dtype_eq_class col_type k
      then Some v
      else mapping_get rest col_type
  end.

(** One pass of the loop body of [get_columns_from_df]: the entry appended
    to [ddl] for [column]. *)
Definition column_entry (col_type : DataType) (column : string) : string :=
  match mapping_get type_mapping col_type with
  | Some ty => column ++ " " ++ ty
  | None => column ++ " String"
  end.

(** The list [ddl] after the loop over [df.columns], started from [acc]. *)
Fixpoint ddl_loop (df : DataFrame) (cols : list string) (acc : list string)
  : Res (list string) :=
  match cols with
  | [] => Ok acc
  | column :: rest =>
      match schema_get df column with
      | None => Raise KeyError column
      | Some col_type =>
          ddl_loop df rest (acc ++ [column_entry col_type column])%list
      end
  end.

Definition get_columns_from_df (df : DataFrame) : Res string :=
  match ddl_loop df (columns df) [] with
  | inl e => inl e
  | inr ddl => Ok (Str.join ", " ddl)
  end.

Definition generate_clickhouse_ddl (df : DataFrame) (table_name : string)
  : Res string :=
  match get_columns_from_df df with
  | inl e => inl e
  | inr cols =>
      Ok ("CREATE TABLE " ++ table_name ++ " (" ++ cols ++ ") ENGINE = Memory")
  end.

(* ================================================================== *)
(** ** Python dicts keyed by strings

    Insertion-ordered: assigning to a key already present replaces its value
    in place, a new key goes to the end. *)

Module Dict.

Definition t (V : Type) : Type := list (string * V).

(** [d[k]], [None] for a missing key *)
Fixpoint get {V : Type} (d : t V) (k : string) : option V :=
  match d with
  | [] => None
  | (k', v) :: rest => if String.eqb k' k then Some v else get rest k
  end.

(** [k in d] *)
Definition mem {V : Type} (d : t V) (k : string) : bool :=
  match get d k with Some _ => true | None => false end.

(** [d[k] = v] *)
Fixpoint set {V : Type} (d : t V) (k : string) (v : V) : t V :=
  match d with
  | [] => [(k, v)]
  | (k', v') :: rest =>
      if String.eqb k' k then (k', v) :: rest else (k', v') :: set rest k v
  end.

(** [list(d.keys())], [list(d.values())], [d.items()] *)
Definition keys {V : Type} (d : t V) : list string := map fst d.
Definition values {V : Type} (d : t V) : list V := map snd d.
Definition items {V : Type} (d : t V) : list (string * V) := d.

End Dict.

(** [k in l] for a list of strings *)
Definition str_in (k : string) (l : list string) : bool :=
  existsb (String.eqb k) l.

(* ================================================================== *)
(** ** Collaborators: file system, polars, ClickHouse client *)

Record FileSystem : Type := mkFileSystem {
  (** [Path.cwd().parent / "datasets" / "financial"] *)
  default_data_path : string;
  (** [data_path.exists()] *)
  path_exists : string -> bool;
  (** [data_path.rglob("*")], in the order of the walk *)
  rglob : string -> list string;
  (** [path.is_file()] *)
  is_file : string -> bool;
  (** [open(dataset_path, "r")] followed by [json.load(f)] *)
  json_load : string -> Res PyVal
}.

Record Polars : Type := mkPolars {
  read_csv : string -> Res DataFrame;
  read_json : string -> Res DataFrame;
  read_parquet : string -> Res DataFrame;
  (** the column the [pl.DataFrame] constructor makes of a Python list:
      its data type and the values as cast to it, or the exception the
      list is rejected with *)
  new_series : list PyVal -> Res (DataType * list PyVal);
  (** a value of [df] as [df.to_numpy()] holds it, cast to the one type of
      the array *)
  numpy_cast : DataFrame -> PyVal -> PyVal;
  (** [str(val)] of a cell of [df.to_numpy()] *)
  py_str : PyVal -> string
}.

(** [df.to_numpy()]: the rows, each aligned to the columns. *)
Definition to_numpy (pl : Polars) (df : DataFrame) : list (list PyVal) :=
  map (fun i => map (fun s => numpy_cast pl df (nth i (s_values s) PyNone)) df)
      (seq 0 (height df)).

(** One call of [client.execute]: the query text and, for an insert, the
    rows passed with it. *)
Record Call : Type := mkCall {
  query : string;
  params : option (list (list string))
}.

(** The store behind the client: each call moves the store to a new state
    and raises or returns result rows. *)
Record Client : Type := mkClient {
  St : Type;
  execute : St -> Call -> St * Res (list (list string))
}.

(** The fields of [ClickHouseImporter] a caller chooses. *)
Record ClickHouseImporter : Type := mkImporter {
  dataset_path : option string;
  filter_tables : list string;
  full_refresh : bool
}.

(** The importer the entry point builds: default exclusion list. *)
Definition importer (dataset : option string) (refresh : bool)
  : ClickHouseImporter :=
  mkImporter dataset ["train_fraud_labels"] refresh.

(* ================================================================== *)
(** ** The reader *)

Section Reader.

Variable fs : FileSystem.
Variable pl : Polars.

(** [self.supported_formats], as [__post_init__] sets it *)
Definition supported_formats : Dict.t (string -> Res DataFrame) :=
  [ ("csv", read_csv pl);
    ("json", read_json pl);
    ("parquet", read_parquet pl) ].

(** [pl.DataFrame({...})] on columns of equal length *)
Fixpoint pl_DataFrame (data : list (string * list PyVal)) : Res DataFrame :=
  match data with
  | [] => Ok []
  | (column, vals) :: rest =>
      match new_series pl vals with
      | inl e => inl e
      | inr (dtype, held) =>
          match pl_DataFrame rest with
          | inl e => inl e
          | inr df => Ok (mkSeries column dtype held :: df)
          end
      end
  end.

(** [type(v).__name__] *)
Definition type_name (v : PyVal) : string :=
  match v with
  | PyNone => "NoneType"
  | PyBool _ => "bool"
  | PyInt _ => "int"
  | PyFloat _ => "float"
  | PyStr _ => "str"
  | PyList _ => "list"
  | PyDict _ => "dict"
  end.

(** The [with open(...)] block of [get_dataframe]. *)
Definition interpolate (dataset_path : string) : Res DataFrame :=
  match json_load fs dataset_path with
  | inl e => inl e
  | inr (PyDict data) =>
      pl_DataFrame [ ("code", map PyStr (Dict.keys data));
                     ("name", Dict.values data) ]
  | inr data =>
      Raise AttributeError
        ("'" ++ type_name data ++ "' object has no attribute 'keys'")
  end.

(** The body of the [try] of [get_dataframe]. *)
Definition load (dataset_path dataset_type : string) (interpolation : bool)
  : Res DataFrame :=
  if interpolation then interpolate dataset_path
  else
    match Dict.get supported_formats dataset_type with
    | Some reader => reader dataset_path
    | None => Raise KeyError ("'" ++ dataset_type ++ "'")
    end.

Definition get_dataframe (dataset_path dataset_type : string)
  (interpolation : bool) : Res DataFrame :=
  if negb (Dict.mem supported_formats dataset_type) then
    Raise ValueError ("Unsupported file type: " ++ dataset_type)
  else
    match load dataset_path dataset_type interpolation with
    | inl e => Raise RuntimeError ("Failed to read dataset: " ++ exn_str e)
    | inr df => Ok df
    end.

Definition get_file_type (dataset_path : string) : string :=
  Str.lstrip "."%char (PurePath.suffix dataset_path).

End Reader.

(* ================================================================== *)
(** ** The orchestrator *)

Definition nl : string := String (ascii_of_nat 10) EmptyString.

Section Orchestrator.

Variable fs : FileSystem.
Variable pl : Polars.
Variable client : Client.

(** What a run acts on: the store, the calls made on the client so far
    and the lines printed so far. *)
Record World : Type := mkWorld {
  store : St client;
  calls : list Call;
  stdout : list string
}.

(** A computation that may raise and that acts on the world. *)
Definition M (A : Type) : Type := World -> World * Res A.

Definition ret {A : Type} (a : A) : M A := fun w => (w, Ok a).

Definition bind {A B : Type} (m : M A) (k : A -> M B) : M B :=
  fun w =>
    match m w with
    | (w', inl e) => (w', inl e)
    | (w', inr a) => k a w'
    end.

Definition lift {A : Type} (r : Res A) : M A := fun w => (w, r).

Definition raise {A : Type} (c : ExnClass) (msg : string) : M A :=
  lift (Raise c msg).

Definition print (line : string) : M unit :=
  fun w => (mkWorld (store w) (calls w) (stdout w ++ [line]), Ok tt).

(** [self.client.execute(query, ...)] *)
Definition client_execute (c : Call) : M (list (list string)) :=
  fun w =>
    let (s', r) := execute client (store w) c in
    (mkWorld s' (calls w ++ [c]) (stdout w), r).

Notation "x <- m ;; k" := (bind m (fun x => k))
  (at level 61, m at next level, right associativity).
Notation "m ;; k" := (bind m (fun _ => k))
  (at level 61, right associativity).

(** [for x in l: body(x)] *)
Fixpoint for_each {A : Type} (l : list A) (body : A -> M unit) : M unit :=
  match l with
  | [] => ret tt
  | x :: rest => body x ;; for_each rest body
  end.

(** *** BaseImporter *)

Definition check_table_exists (table_name : string) : M bool :=
  let query := "SHOW TABLES LIKE '" ++ table_name ++ "'" in
  result <- client_execute (mkCall query None) ;;
  ret (Nat.ltb 0 (List.length result)).

Definition create_table (table_name ddl : string) : M unit :=
  client_execute (mkCall ddl None) ;;
  print ("Created table " ++ table_name).

Definition drop_table (table : string) : M unit :=
  let query := "DROP TABLE IF EXISTS " ++ table in
  client_execute (mkCall query None) ;;
  print ("Dropped table " ++ table).

Definition import_dataset (df : DataFrame) (table : string) : M unit :=
  let data := map (map (py_str pl)) (to_numpy pl df) in
  client_execute (mkCall ("INSERT INTO " ++ table ++ " VALUES") (Some data)) ;;
  print ("Inserted " ++ Str.of_nat (height df) ++ " rows into " ++ table).

(** *** ClickHouseImporter *)

Variable self : ClickHouseImporter.

(** [data_path] of [get_datasets]; [not self.dataset_path] holds for
    [None] and for the empty string; [Path(self.dataset_path)] drops empty
    and [.] components and a separator at the end. *)
Definition data_path : string :=
  match dataset_path self with
  | None => default_data_path fs
  | Some "" => default_data_path fs
  | Some p => PurePath.normal p
  end.

(** One pass of the loop of [get_datasets] over [path]. *)
Definition scan_step (df_datasets : Dict.t DataFrame) (path : string)
  : M (Dict.t DataFrame) :=
  if is_file fs path then
    let table_name := PurePath.stem path in
    let file_type := get_file_type path in
    let interpolation := String.eqb table_name "mcc_codes" in
    match get_dataframe fs pl path file_type interpolation with
    | inl e =>
        print ("Error processing " ++ table_name ++ ": " ++ exn_str e) ;;
        ret df_datasets
    | inr dataset =>
        let df_datasets' := Dict.set df_datasets table_name dataset in
        match generate_clickhouse_ddl dataset table_name with
        | inl e =>
            print ("Error processing " ++ table_name ++ ": " ++ exn_str e) ;;
            ret df_datasets'
        | inr ddl =>
            print ("Generated DDL for " ++ table_name ++ ":" ++ nl
                   ++ ddl ++ nl) ;;
            ret df_datasets'
        end
    end
  else ret df_datasets.

Fixpoint scan (paths : list string) (df_datasets : Dict.t DataFrame)
  : M (Dict.t DataFrame) :=
  match paths with
  | [] => ret df_datasets
  | path :: rest =>
      df_datasets' <- scan_step df_datasets path ;;
      scan rest df_datasets'
  end.

Definition get_datasets : M (Dict.t DataFrame) :=
  if negb (path_exists fs data_path) then
    raise FileNotFoundError ("Data directory not found: " ++ data_path)
  else scan (rglob fs data_path) [].

(** The body of the loop of [main]. *)
Definition main_body (item : string * DataFrame) : M unit :=
  let (table_name, df) := item in
  (if full_refresh self then drop_table table_name else ret tt) ;;
  present <- check_table_exists table_name ;;
  (if negb present then
     ddl <- lift (generate_clickhouse_ddl df table_name) ;;
     create_table table_name ddl
   else ret tt) ;;
  (if negb (str_in table_name (filter_tables self)) then
     import_dataset df table_name
   else ret tt).

Definition main : M unit :=
  datasets <- get_datasets ;;
  for_each (Dict.items datasets) main_body.

End Orchestrator.

Arguments mkWorld {client} store calls stdout.
Arguments store {client} w.
Arguments calls {client} w.
Arguments stdout {client} w.

(* ================================================================== *)
(** ** Vocabulary of the statements *)

(** The spec's table: the four listed types, and text for the rest. *)
Definition spec_store_type (ty : DataType) : string :=
  match ty with
  | Int32 => "Int32"
  | Float32 => "Float32"
  | Utf8 => "String"
  | Datetime _ _ => "DateTime"
  | _ => "String"
  end.

(** The store type the table lookup of [get_columns_from_df] gives a
    column type: the entry found, or String. *)
Definition mapped_type (col_type : DataType) : string :=
  match mapping_get type_mapping col_type with
  | Some ty => ty
  | None => "String"
  end.

(** The column definition of a column: its name and its mapped type. *)
Definition column_def (s : Series) : string :=
  s_name s ++ " " ++ mapped_type (s_dtype s).

Definition supported_tags : list string := ["csv"; "json"; "parquet"].

(** What [get_dataframe] makes of the outcome of its [try] body. *)
Definition wrap_read (r : Res DataFrame) : Res DataFrame :=
  match r with
  | inl cause => Raise RuntimeError ("Failed to read dataset: " ++ exn_str cause)
  | inr df => Ok df
  end.

Definition show_call (table_name : string) : Call :=
  mkCall ("SHOW TABLES LIKE '" ++ table_name ++ "'") None.

Definition drop_call (table : string) : Call :=
  mkCall ("DROP TABLE IF EXISTS " ++ table) None.

Definition create_call (ddl : string) : Call := mkCall ddl None.

Definition insert_rows (pl : Polars) (df : DataFrame) : list (list string) :=
  map (map (py_str pl)) (to_numpy pl df).

Definition insert_call (pl : Polars) (df : DataFrame) (table : string) : Call :=
  mkCall ("INSERT INTO " ++ table ++ " VALUES") (Some (insert_rows pl df)).

(** A call that carries rows: only [import_dataset] makes one. *)
Definition is_insert (c : Call) : bool :=
  match params c with Some _ => true | None => false end.

(** A call whose text is a CREATE TABLE statement. *)
Definition is_create (c : Call) : bool :=
  String.prefix "CREATE TABLE " (query c).

(** A call whose text is a DROP TABLE statement. *)
Definition is_drop (c : Call) : bool :=
  String.prefix "DROP TABLE " (query c).

(** Every call [m] adds to the log satisfies [P], and [m] only adds. *)
Definition issues {client : Client} {A : Type} (m : M client A)
    (P : Call -> Prop) : Prop :=
  forall w, exists cs,
    calls (fst (m w)) = (calls w ++ cs)%list /\ Forall P cs.


(** The calls a pass of the loop body may make for [(t, df)]. *)
Definition body_call (pl : Polars) (self : ClickHouseImporter)
    (t : string) (df : DataFrame) (c : Call) : Prop :=
  c = drop_call t /\ full_refresh self = true
  \/ c = show_call t
  \/ (exists ddl, generate_clickhouse_ddl df t = Ok ddl /\ c = create_call ddl)
  \/ (c = insert_call pl df t /\ str_in t (filter_tables self) = false).

(** What discovery makes of one path: the table name and the dataset,
    when the path is a regular file that the reader reads. *)
Definition read_as (fs : FileSystem) (pl : Polars) (path : string)
  : option (string * DataFrame) :=
  if is_file fs path then
    match get_dataframe fs pl path (get_file_type path)
            (String.eqb (PurePath.stem path) "mcc_codes") with
    | inr df => Some (PurePath.stem path, df)
    | inl _ => None
    end
  else None.

(** The dataset read last under the stem [t] along [paths], if any. *)
Definition last_read (fs : FileSystem) (pl : Polars) (t : string)
    (paths : list string) (before : option DataFrame)
  : option DataFrame :=
  fold_left
    (fun acc path =>
       match read_as fs pl path with
       | Some (t', df) => if String.eqb t' t then Some df else acc
       | None => acc
       end)
    paths before.

Definition ddl_text (df : DataFrame) (t : string) : string :=
  match generate_clickhouse_ddl df t with
  | inr ddl => ddl
  | inl _ => ""
  end.

(** How the store answers the four commands, for the tables of [d]:
    a drop removes the table and is no error when there is none; the
    probe answers with rows exactly when the table is there; a create of
    a missing table adds it, empty; an insert into a table adds its rows
    or is refused, leaving the table as it was.  No command touches
    another table. *)
Definition store_laws (pl : Polars) (client : Client)
    (tables : St client -> string -> option (string * nat))
    (rejects : string -> list (list string) -> option Exn)
    (d : Dict.t DataFrame) : Prop :=
  forall (s : St client) (t : string) (df : DataFrame),
    In (t, df) d ->
    (exists s' r,
        execute client s (drop_call t) = (s', Ok r)
        /\ forall u, tables s' u
                     = if String.eqb t u then None else tables s u)
    /\ (exists s' r,
           execute client s (show_call t) = (s', Ok r)
           /\ (forall u, tables s' u = tables s u)
           /\ Nat.ltb 0 (List.length r)
              = match tables s t with Some _ => true | None => false end)
    /\ (tables s t = None ->
        exists s' r,
          execute client s (create_call (ddl_text df t)) = (s', Ok r)
          /\ forall u, tables s' u
                       = if String.eqb t u then Some (ddl_text df t, 0)
                         else tables s u)
    /\ (forall ddl n,
           tables s t = Some (ddl, n) ->
           exists s',
             match rejects ddl (insert_rows pl df) with
             | None =>
                 (exists r,
                     execute client s (insert_call pl df t) = (s', Ok r))
                 /\ forall u, tables s' u
                              = if String.eqb t u
                                then Some (ddl,
                                           n + List.length (insert_rows pl df))
                                else tables s u
             | Some e =>
                 execute client s (insert_call pl df t) = (s', inl e)
                 /\ forall u, tables s' u = tables s u
             end).




(** The schema of a DataFrame: names and types, in column order. *)
Definition schema_of (df : DataFrame) : list (string * DataType) :=
  map (fun s => (s_name s, s_dtype s)) df.

(** The line discovery prints for a regular file. *)
Definition scan_line (fs : FileSystem) (pl : Polars) (path : string) : string :=
  let table_name := PurePath.stem path in
  match get_dataframe fs pl path (get_file_type path)
          (String.eqb table_name "mcc_codes") with
  | inl e => "Error processing " ++ table_name ++ ": " ++ exn_str e
  | inr df =>
      "Generated DDL for " ++ table_name ++ ":" ++ nl
      ++ ddl_text df table_name ++ nl
  end.

(** The mapping after one more path of the walk. *)
Definition found (fs : FileSystem) (pl : Polars) (d : Dict.t DataFrame)
    (path : string) : Dict.t DataFrame :=
  match read_as fs pl path with
  | Some (t, df) => Dict.set d t df
  | None => d
  end.

(** The table names of the files read, in the order of the walk. *)
Definition read_stems (fs : FileSystem) (pl : Polars) (paths : list string)
  : list string :=
  flat_map (fun path => match read_as fs pl path with
                        | Some (t, _) => [t]
                        | None => []
                        end) paths.

(** The names of a list in the order of their first occurrence, after those
    already [seen]. *)
Fixpoint first_seen (seen l : list string) : list string :=
  match l with
  | [] => seen
  | t :: rest =>
      first_seen (if str_in t seen then seen else (seen ++ [t])%list) rest
  end.

(** The calls of one pass: all of them calls of that dataset, the probe
    among them. *)
Definition pass_of (pl : Polars) (self : ClickHouseImporter)
    (item : string * DataFrame) (cs : list Call) : Prop :=
  In (show_call (fst item)) cs
  /\ Forall (body_call pl self (fst item) (snd item)) cs.

(* ================================================================== *)
(** ** Concrete collaborators for examples *)

Module Demo.

Definition is_str (v : PyVal) : bool :=
  match v with PyStr _ => true | _ => false end.

Definition is_int (v : PyVal) : bool :=
  match v with PyInt _ => true | _ => false end.

Definition is_number (v : PyVal) : bool :=
  match v with PyInt _ | PyFloat _ => true | _ => false end.

(** An integer as the float of the same value. *)
Definition to_float (v : PyVal) : PyVal :=
  match v with
  | PyInt z => PyFloat (NilZero.string_of_int (Z.to_int z) ++ ".0")
  | _ => v
  end.

(** A list of strings is a text column, a list of integers a 64-bit
    integer column, a list of integers and floats a 64-bit float column
    whose integers are cast; anything else is refused. *)
Definition series (vals : list PyVal) : Res (DataType * list PyVal) :=
  match vals with
  | [] => Ok (Null, [])
  | _ =>
      if forallb is_str vals then Ok (Utf8, vals)
      else if forallb is_int vals then Ok (Int64, vals)
      else if forallb is_number vals then Ok (Float64, map to_float vals)
      else Raise LibraryError "unexpected value while building Series"
  end.

Definition is_float_type (ty : DataType) : bool :=
  match ty with Float32 | Float64 => true | _ => false end.

(** The array of a frame with a float column holds floats. *)
Definition cast (df : DataFrame) (v : PyVal) : PyVal :=
  if existsb (fun s => is_float_type (s_dtype s)) df then to_float v else v.

Definition str_of (v : PyVal) : string :=
  match v with
  | PyNone => "None"
  | PyBool true => "True"
  | PyBool false => "False"
  | PyInt z => NilZero.string_of_int (Z.to_int z)
  | PyFloat r => r
  | PyStr s => s
  | PyList _ => "[...]"
  | PyDict _ => "{...}"
  end.

Definition accounts : DataFrame :=
  [ mkSeries "id" Int32 [PyInt 1; PyInt 2; PyInt 3];
    mkSeries "balance" Float32 [PyFloat "10.5"; PyFloat "0.0"; PyFloat "7.25"] ].

Definition accounts_v2 : DataFrame :=
  [ mkSeries "id" Int32 [PyInt 9];
    mkSeries "owner" Utf8 [PyStr "ann"] ].

Definition labels : DataFrame :=
  [ mkSeries "target" Utf8 [PyStr "No"; PyStr "Yes"] ].

Definition mcc : PyVal :=
  PyDict [ ("5411", PyStr "Grocery"); ("5812", PyStr "Restaurant") ].

Definition no_file (path : string) : Exn :=
  mkExn FileNotFoundError ("No such file or directory: " ++ path).

Definition csv (path : string) : Res DataFrame :=
  if String.eqb path "data/accounts.csv" then Ok accounts
  else if String.eqb path "data/old/accounts.csv" then Ok accounts_v2
  else inl (no_file path).

Definition json (path : string) : Res DataFrame :=
  if String.eqb path "data/train_fraud_labels.json" then Ok labels
  else if String.eqb path "data/mcc_codes.json" then
    Raise LibraryError "expected a list of records"
  else inl (no_file path).

Definition parquet (path : string) : Res DataFrame := inl (no_file path).

Definition pl : Polars := mkPolars csv json parquet series cast str_of.

Definition load_json (path : string) : Res PyVal :=
  if String.eqb (PurePath.stem path) "mcc_codes" then Ok mcc
  else if String.eqb path "data/train_fraud_labels.json" then
    Ok (PyList [PyDict [("target", PyStr "No")]; PyDict [("target", PyStr "Yes")]])
  else inl (no_file path).

(** A data directory [data] holding the regular files [paths]. *)
Definition fs (paths : list string) : FileSystem :=
  mkFileSystem "/srv/app/datasets/financial"
               (fun p => String.eqb p "data")
               (fun _ => paths)
               (fun p => negb (String.eqb p "data/old"))
               load_json.

(** *** An in-memory store

    Tables by name, each with the text that created it and its number of
    rows.  Creating a table that exists and inserting into one that does
    not are errors; dropping a missing table is not. *)

Definition Tables : Type := Dict.t (string * nat).

Fixpoint remove {V : Type} (d : Dict.t V) (k : string) : Dict.t V :=
  match d with
  | [] => []
  | (k', v) :: rest =>
      if String.eqb k' k then remove rest k else (k', v) :: remove rest k
  end.

Fixpoint strip_prefix (pre s : string) : option string :=
  match pre, s with
  | EmptyString, _ => Some s
  | String a pre', String b s' =>
      if Ascii.eqb a b then strip_prefix pre' s' else None
  | String _ _, EmptyString => None
  end.

Fixpoint first_word (s : string) : string :=
  match s with
  | EmptyString => EmptyString
  | String a rest =>
      if Ascii.eqb a " "%char then EmptyString else String a (first_word rest)
  end.

Definition unquote (s : string) : string :=
  substring 0 (String.length s - 1) s.

Definition run (inserts_fail : bool) (s : Tables) (c : Call)
  : Tables * Res (list (list string)) :=
  match strip_prefix "SHOW TABLES LIKE '" (query c) with
  | Some rest =>
      let t := unquote rest in
      (s, Ok (if Dict.mem s t then [[t]] else []))
  | None =>
  match strip_prefix "DROP TABLE IF EXISTS " (query c) with
  | Some t => (remove s t, Ok [])
  | None =>
  match strip_prefix "CREATE TABLE " (query c) with
  | Some rest =>
      let t := first_word rest in
      if Dict.mem s t then
        (s, Raise LibraryError ("Table " ++ t ++ " already exists"))
      else (Dict.set s t (query c, 0), Ok [])
  | None =>
  match strip_prefix "INSERT INTO " (query c) with
  | Some rest =>
      let t := first_word rest in
      match Dict.get s t, params c with
      | Some (ddl, n), Some rows =>
          if inserts_fail then
            (s, Raise LibraryError ("Cannot parse input for table " ++ t))
          else (Dict.set s t (ddl, n + List.length rows), Ok [])
      | _, _ => (s, Raise LibraryError ("Table " ++ t ++ " does not exist"))
      end
  | None => (s, Raise LibraryError "Syntax error")
  end end end end.

Definition memory : Client := mkClient Tables (run false).


Definition world (client : Client) (s : St client) : World client :=
  mkWorld s [] [].

End Demo.

(* ================================================================== *)
(** ** Runs on the in-memory store *)

Module Runs.

Definition files : FileSystem :=
  Demo.fs ["data/train_fraud_labels.json"; "data/accounts.csv";
           "data/mcc_codes.json"].

Definition accounts_ddl : string :=
  "CREATE TABLE accounts (id Int32, balance Float32) ENGINE = Memory".

Definition labels_ddl : string :=
  "CREATE TABLE train_fraud_labels (target String) ENGINE = Memory".


(** A store that already holds a table [accounts] of another shape. *)
Definition old_accounts : Demo.Tables :=
  [("accounts", ("CREATE TABLE accounts (id String) ENGINE = Memory", 5))].

End Runs.



Module Walk.

(** A walk with a sub-directory, two files of one stem, and a file of an
    unsupported type. *)
Definition paths : list string :=
  [ "data/old/accounts.csv"; "data/notes.txt"; "data/old";
    "data/train_fraud_labels.json"; "data/accounts.csv" ].

Definition files : FileSystem := Demo.fs paths.

Definition datasets : Dict.t DataFrame :=
  [ ("accounts", Demo.accounts); ("train_fraud_labels", Demo.labels) ].

Definition self : ClickHouseImporter := importer (Some "data") false.

Definition start : World Demo.memory := Demo.world Demo.memory [].

End Walk.

(* ================================================================== *)
(** ** Paths and statements on examples *)

Example stem_csv : PurePath.stem "data/fin/users_data.csv" = "users_data".
Proof. reflexivity. Qed.

Example suffix_csv :
  Str.lstrip "."%char (PurePath.suffix "data/fin/users_data.csv") = "csv".
Proof. reflexivity. Qed.

Example stem_hidden : PurePath.stem "data/.hidden" = ".hidden".
Proof. reflexivity. Qed.

Example suffix_two : PurePath.suffix "a/x.tar.gz" = ".gz".
Proof. reflexivity. Qed.

Example normal_paths :
  map PurePath.normal
      ["data"; "missing/"; "./data"; "a//b/./c"; "/"; "//srv/x"; "///srv/x";
       "."; "../x/"]
  = ["data"; "missing"; "data"; "a/b/c"; "/"; "//srv/x"; "/srv/x";
     "."; "../x"].
Proof. reflexivity. Qed.

Example timestamp_column :
  generate_clickhouse_ddl
    [mkSeries "id" Int32 [PyInt 1];
     mkSeries "at" (Datetime TU_us None) [PyStr "2020-01-01 00:00:00"]]
    "events"
  = Ok "CREATE TABLE events (id Int32, at String) ENGINE = Memory".
Proof. reflexivity. Qed.

Example ddl_accounts :
  generate_clickhouse_ddl
    [mkSeries "id" Int32 [PyInt 1]; mkSeries "balance" Float32 [PyFloat "1.5"];
     mkSeries "n" Int64 [PyInt 3]] "accounts"
  = Ok "CREATE TABLE accounts (id Int32, balance Float32, n String) ENGINE = Memory".
Proof. reflexivity. Qed.

(* ================================================================== *)
(** ** The synthesizer: type mapping and DDL shape *)

Lemma append_length (a b : string) :
  String.length (a ++ b) = String.length a + String.length b.
Proof. induction a as [|c a IH]; simpl; [reflexivity|]. now rewrite IH. Qed.

Lemma append_inj_r (a b x : string) : a ++ x = b ++ x -> a = b.
Proof.
  revert b. induction a as [|c a IH]; intros [|d b] H; simpl in H.
  - reflexivity.
  - exfalso. apply (f_equal String.length) in H. simpl in H.
    rewrite append_length in H. lia.
  - exfalso. apply (f_equal String.length) in H. simpl in H.
    rewrite append_length in H. lia.
  - injection H as -> H. f_equal. apply IH. exact H.
Qed.

Lemma column_entry_mapped (ty : DataType) (column : string) :
  column_entry ty column = column ++ " " ++ mapped_type ty.
Proof.
  unfold column_entry, mapped_type.
  destruct (mapping_get type_mapping ty); reflexivity.
Qed.

Lemma schema_get_in (df : DataFrame) (column : string) :
  In column (columns df) -> exists ty, schema_get df column = Some ty.
Proof.
  induction df as [|s df IH]; simpl; [tauto|].
  intros [H|H].
  - subst. rewrite String.eqb_refl. eauto.
  - destruct (String.eqb (s_name s) column); eauto.
Qed.

Lemma ddl_loop_total (df : DataFrame) (cols acc : list string) :
  incl cols (columns df) ->
  exists ddl, ddl_loop df cols acc = Ok (acc ++ ddl)%list
              /\ List.length ddl = List.length cols.
Proof.
  revert acc. induction cols as [|c cols IH]; intros acc Hincl; simpl.
  - exists []. rewrite app_nil_r. auto.
  - destruct (schema_get_in df c) as [ty Hty]; [apply Hincl; left; reflexivity|].
    rewrite Hty.
    destruct (IH (acc ++ [column_entry ty c])%list) as [ddl [Hd Hl]].
    { intros x Hx. apply Hincl. right. exact Hx. }
    exists (column_entry ty c :: ddl). rewrite Hd. split.
    + rewrite <- app_assoc. reflexivity.
    + simpl. congruence.
Qed.

Lemma get_columns_from_df_total (df : DataFrame) :
  exists cols, get_columns_from_df df = Ok cols.
Proof.
  unfold get_columns_from_df.
  destruct (ddl_loop_total df (columns df) [] (incl_refl _)) as [ddl [H _]].
  rewrite H. eauto.
Qed.

Lemma generate_clickhouse_ddl_total (df : DataFrame) (table_name : string) :
  exists ddl, generate_clickhouse_ddl df table_name = Ok ddl.
Proof.
  unfold generate_clickhouse_ddl.
  destruct (get_columns_from_df_total df) as [cols H]. rewrite H. eauto.
Qed.

(** With distinct column names, the schema gives each column its own type. *)
Lemma ddl_loop_nodup (df rest : DataFrame) (seen : DataFrame) (acc : list string) :
  df = (seen ++ rest)%list ->
  NoDup (columns df) ->
  ddl_loop df (columns rest) acc = Ok (acc ++ map column_def rest)%list.
Proof.
  revert seen acc. induction rest as [|s rest IH]; intros seen acc Hdf Hnd; simpl.
  - rewrite app_nil_r. reflexivity.
  - assert (Hget : schema_get df (s_name s) = Some (s_dtype s)).
    { subst df. clear IH. unfold columns in Hnd. rewrite map_app in Hnd. simpl in Hnd.
      apply NoDup_remove_2 in Hnd.
      induction seen as [|x seen IHs]; simpl.
      - rewrite String.eqb_refl. reflexivity.
      - destruct (String.eqb (s_name x) (s_name s)) eqn:E.
        + apply String.eqb_eq in E. exfalso. apply Hnd. simpl. left. exact E.
        + apply IHs. intro H. apply Hnd. simpl. right. exact H. }
    rewrite Hget.
    rewrite (IH (seen ++ [s])%list).
    + rewrite <- app_assoc. simpl. rewrite column_entry_mapped. reflexivity.
    + rewrite <- app_assoc. exact Hdf.
    + exact Hnd.
Qed.

(** C3 (a defect of the code): the table of [get_columns_from_df] has the
    entry of [pl.Datetime] for DateTime, but a schema holds a Datetime with
    its time unit and time zone, which hashes unlike the class, so the
    lookup misses it: for every timestamp column the loop appends the name
    with String, not with DateTime as the entry and the spec's mapping say.
    The rest is as stated: 32-bit integers give Int32, 32-bit floats
    Float32, text String, every type of another class String, and the
    synthesizer never raises. *)
Theorem C3_datetime_lookup_misses :
  In (Cls.Datetime, "DateTime") type_mapping
  /\ (forall time_unit time_zone column,
        mapping_get type_mapping (Datetime time_unit time_zone) = None
        /\ column_entry (Datetime time_unit time_zone) column
           = column ++ " String"
        /\ column_entry (Datetime time_unit time_zone) column
           <> column ++ " "
              ++ spec_store_type (Datetime time_unit time_zone))
  /\ (forall column, column_entry Int32 column = column ++ " Int32")
  /\ (forall column, column_entry Float32 column = column ++ " Float32")
  /\ (forall column, column_entry Utf8 column = column ++ " String")
  /\ (forall ty column,
        ~ In (class_of ty) [Cls.Int32; Cls.Float32; Cls.Utf8; Cls.Datetime] ->
        mapping_get type_mapping ty = None
        /\ column_entry ty column = column ++ " String")
  /\ (forall ty column,
        class_of ty <> Cls.Datetime ->
        column_entry ty column = column ++ " " ++ spec_store_type ty)
  /\ (forall df : DataFrame, exists cols, get_columns_from_df df = Ok cols).
Proof.
  split; [simpl; tauto|].
  split.
  { intros u z column.
    assert (H : mapping_get type_mapping (Datetime u z) = None) by reflexivity.
    split; [exact H|]. unfold column_entry. rewrite H.
    split; [reflexivity|]. simpl. intros E.
    apply (f_equal String.length) in E. rewrite !append_length in E.
    simpl in E. lia. }
  split; [reflexivity|]. split; [reflexivity|]. split; [reflexivity|].
  split; [|split].
  - intros ty column H.
    split; destruct ty; try reflexivity; exfalso; apply H; simpl; tauto.
  - intros ty column H.
    destruct ty; try reflexivity. exfalso. apply H. reflexivity.
  - apply get_columns_from_df_total.
Qed.

(** C4: for a DataFrame (column names distinct), the loop emits exactly one
    definition, the name then the type the table lookup gives, per column
    in column order; the definitions are joined with a comma and a space;
    the statement is CREATE TABLE, the table name, the parenthesised
    definitions and the Memory engine; there are as many definitions as
    columns. *)
Theorem C4_ddl_shape (df : DataFrame) (table_name : string) :
  NoDup (columns df) ->
  ddl_loop df (columns df) [] = Ok (map column_def df)
  /\ get_columns_from_df df = Ok (Str.join ", " (map column_def df))
  /\ generate_clickhouse_ddl df table_name
     = Ok ("CREATE TABLE " ++ table_name ++ " ("
           ++ Str.join ", " (map column_def df) ++ ") ENGINE = Memory")
  /\ List.length (map column_def df) = List.length (columns df).
Proof.
  intros Hnd.
  assert (H : ddl_loop df (columns df) [] = Ok (map column_def df)).
  { apply (ddl_loop_nodup df df [] [] eq_refl Hnd). }
  unfold generate_clickhouse_ddl, get_columns_from_df. rewrite H.
  repeat split. unfold columns. now rewrite !length_map.
Qed.

Lemma C4_ddl_shape_witness :
  let df := [mkSeries "id" Int32 [PyInt 1; PyInt 2];
             mkSeries "balance" Float32 [PyFloat "1.5"; PyFloat "2.0"];
             mkSeries "opened" (Datetime TU_us None)
                      [PyStr "2020-01-01"; PyStr "2020-01-02"]] in
  generate_clickhouse_ddl df "accounts"
  = Ok "CREATE TABLE accounts (id Int32, balance Float32, opened String) ENGINE = Memory".
Proof.
  intros df.
  assert (Hnd : NoDup (columns df)).
  { repeat constructor; simpl; intuition discriminate. }
  exact (proj1 (proj2 (proj2 (C4_ddl_shape df "accounts" Hnd)))).
Defined.

(* ================================================================== *)
(** ** The reader: errors and interpolation *)

Lemma mem_supported_formats (pl : Polars) (tag : string) :
  Dict.mem (supported_formats pl) tag = str_in tag supported_tags.
Proof.
  unfold Dict.mem, supported_formats, supported_tags, str_in.
  cbn [Dict.get existsb].
  rewrite (String.eqb_sym "csv"), (String.eqb_sym "json"),
    (String.eqb_sym "parquet").
  destruct (String.eqb tag "csv"); [reflexivity|].
  destruct (String.eqb tag "json"); [reflexivity|].
  destruct (String.eqb tag "parquet"); reflexivity.
Qed.


(** C2, as the code has it: the unsupported-format check comes first and
    applies to the singleton too; past it, the interpolation path is taken
    before the per-format reader is looked up, so the outcome is that of
    parsing the file as a JSON object and does not depend on the readers;
    and discovery reads a file of stem mcc_codes in this way. *)
Theorem C2_interpolation_after_format_check (fs : FileSystem) (pl : Polars)
    (path tag : string) :
  (str_in tag supported_tags = false ->
     get_dataframe fs pl path tag true
     = Raise ValueError ("Unsupported file type: " ++ tag))
  /\ (str_in tag supported_tags = true ->
      get_dataframe fs pl path tag true = wrap_read (interpolate fs pl path)
      /\ forall csv json parquet : string -> Res DataFrame,
          get_dataframe fs
            (mkPolars csv json parquet (new_series pl) (numpy_cast pl)
                      (py_str pl))
            path tag true
          = get_dataframe fs pl path tag true)
  /\ (forall (client : Client) (d : Dict.t DataFrame) (w : World client)
             (df : DataFrame),
        is_file fs path = true ->
        PurePath.stem path = "mcc_codes" ->
        str_in (get_file_type path) supported_tags = true ->
        interpolate fs pl path = Ok df ->
        snd (scan_step fs pl client d path w)
        = Ok (Dict.set d "mcc_codes" df)).
Proof.
  split; [|split].
  - intros H. unfold get_dataframe. rewrite mem_supported_formats, H.
    reflexivity.
  - intros H. split.
    + unfold get_dataframe. rewrite mem_supported_formats, H. reflexivity.
    + intros csv json parquet. unfold get_dataframe.
      rewrite !mem_supported_formats, H. reflexivity.
  - intros client d w df Hfile Hstem Htag Hint.
    unfold scan_step. rewrite Hfile, Hstem. simpl.
    unfold get_dataframe. rewrite mem_supported_formats, Htag. simpl.
    unfold load. rewrite Hint.
    destruct (generate_clickhouse_ddl_total df "mcc_codes") as [ddl Hddl].
    rewrite Hddl. reflexivity.
Qed.

(** C2 as stated fails: a flat JSON object stored as [mcc_codes.txt] has
    the stem that turns interpolation on, and is still rejected for its
    format tag; discovery finds no dataset. *)
Lemma C2_counterexample :
  let path := "data/mcc_codes.txt" in
  let files := Demo.fs [path] in
  PurePath.stem path = "mcc_codes"
  /\ get_file_type path = "txt"
  /\ json_load files path = Ok Demo.mcc
  /\ get_dataframe files Demo.pl path (get_file_type path)
       (String.eqb (PurePath.stem path) "mcc_codes")
     = Raise ValueError "Unsupported file type: txt"
  /\ snd (get_datasets files Demo.pl Demo.memory (importer (Some "data") false)
            (Demo.world Demo.memory []))
     = Ok [].
Proof. repeat split. Qed.




(* ================================================================== *)
(** ** The orchestrator: calls made on the client *)

Section Steps.

Variable fs : FileSystem.
Variable pl : Polars.
Variable client : Client.
Variable self : ClickHouseImporter.

Lemma check_table_exists_run (t : string) (w : World client) :
  check_table_exists client t w
  = let (s', r) := execute client (store w) (show_call t) in
    (mkWorld s' (calls w ++ [show_call t]) (stdout w),
     match r with
     | inl e => inl e
     | inr rows => Ok (Nat.ltb 0 (List.length rows))
     end).
Proof.
  unfold check_table_exists, bind, client_execute, ret, show_call.
  destruct (execute client (store w) _) as [s' [e|rows]]; reflexivity.
Qed.

Lemma drop_table_run (t : string) (w : World client) :
  drop_table client t w
  = let (s', r) := execute client (store w) (drop_call t) in
    match r with
    | inl e => (mkWorld s' (calls w ++ [drop_call t]) (stdout w), inl e)
    | inr _ =>
        (mkWorld s' (calls w ++ [drop_call t])
                 (stdout w ++ ["Dropped table " ++ t]), Ok tt)
    end.
Proof.
  unfold drop_table, bind, client_execute, print, drop_call.
  destruct (execute client (store w) _) as [s' [e|rows]]; reflexivity.
Qed.

Lemma create_table_run (t ddl : string) (w : World client) :
  create_table client t ddl w
  = let (s', r) := execute client (store w) (create_call ddl) in
    match r with
    | inl e => (mkWorld s' (calls w ++ [create_call ddl]) (stdout w), inl e)
    | inr _ =>
        (mkWorld s' (calls w ++ [create_call ddl])
                 (stdout w ++ ["Created table " ++ t]), Ok tt)
    end.
Proof.
  unfold create_table, bind, client_execute, print, create_call.
  destruct (execute client (store w) _) as [s' [e|rows]]; reflexivity.
Qed.

Lemma import_dataset_run (df : DataFrame) (t : string) (w : World client) :
  import_dataset pl client df t w
  = let (s', r) := execute client (store w) (insert_call pl df t) in
    match r with
    | inl e =>
        (mkWorld s' (calls w ++ [insert_call pl df t]) (stdout w), inl e)
    | inr _ =>
        (mkWorld s' (calls w ++ [insert_call pl df t])
                 (stdout w
                  ++ ["Inserted " ++ Str.of_nat (height df)
                      ++ " rows into " ++ t]), Ok tt)
    end.
Proof.
  unfold import_dataset, bind, client_execute, print, insert_call, insert_rows.
  destruct (execute client (store w) _) as [s' [e|rows]]; reflexivity.
Qed.

(** The loop body, one step after the other. *)
Lemma main_body_run (t : string) (df : DataFrame) (w : World client) :
  main_body pl client self (t, df) w
  = match (if full_refresh self then drop_table client t w else (w, Ok tt)) with
    | (w1, inl e) => (w1, inl e)
    | (w1, inr _) =>
        match check_table_exists client t w1 with
        | (w2, inl e) => (w2, inl e)
        | (w2, inr present) =>
            match (if present then (w2, Ok tt)
                   else match generate_clickhouse_ddl df t with
                        | inl e => (w2, inl e)
                        | inr ddl => create_table client t ddl w2
                        end) with
            | (w3, inl e) => (w3, inl e)
            | (w3, inr _) =>
                if str_in t (filter_tables self) then (w3, Ok tt)
                else import_dataset pl client df t w3
            end
        end
    end.
Proof.
  unfold main_body, bind, ret, lift.
  destruct (full_refresh self);
    [destruct (drop_table client t w) as [w1 [e|[]]]|]; try reflexivity;
    (destruct (check_table_exists client t _) as [w2 [e|[|]]];
     try reflexivity; simpl;
     [ destruct (str_in t (filter_tables self)); reflexivity
     | destruct (generate_clickhouse_ddl df t) as [e|ddl]; simpl;
       [ reflexivity
       | destruct (create_table client t ddl w2) as [w3 [e|[]]];
         try reflexivity;
         destruct (str_in t (filter_tables self)); reflexivity ] ]).
Qed.

End Steps.

(** *** Which calls a computation makes *)

Section Issues.

Variable client : Client.

Lemma issues_ret {A : Type} (a : A) (P : Call -> Prop) :
  issues (ret client a) P.
Proof. intros w. exists []. simpl. rewrite app_nil_r. auto. Qed.

Lemma issues_lift {A : Type} (r : Res A) (P : Call -> Prop) :
  issues (lift client r) P.
Proof. intros w. exists []. simpl. rewrite app_nil_r. auto. Qed.

Lemma issues_print (line : string) (P : Call -> Prop) :
  issues (print client line) P.
Proof. intros w. exists []. simpl. rewrite app_nil_r. auto. Qed.

Lemma issues_execute (c : Call) (P : Call -> Prop) :
  P c -> issues (client_execute client c) P.
Proof.
  intros Hc w. exists [c]. unfold client_execute.
  destruct (execute client (store w) c). simpl. auto.
Qed.

Lemma issues_bind {A B : Type} (m : M client A) (k : A -> M client B)
    (P : Call -> Prop) :
  issues m P -> (forall a, issues (k a) P) -> issues (bind client m k) P.
Proof.
  intros Hm Hk w. unfold bind.
  destruct (Hm w) as [cs [E F]].
  destruct (m w) as [w1 [e|a]]; simpl in *.
  - exists cs. auto.
  - destruct (Hk a w1) as [cs' [E' F']].
    exists (cs ++ cs')%list. rewrite E', E, app_assoc. split; [reflexivity|].
    apply Forall_app. auto.
Qed.

Lemma issues_weaken {A : Type} (m : M client A) (P Q : Call -> Prop) :
  (forall c, P c -> Q c) -> issues m P -> issues m Q.
Proof.
  intros HPQ Hm w. destruct (Hm w) as [cs [E F]]. exists cs. split; [exact E|].
  eapply Forall_impl; eauto.
Qed.

Lemma issues_ext {A : Type} (m m' : M client A) (P : Call -> Prop) :
  (forall w, m w = m' w) -> issues m P -> issues m' P.
Proof. intros E H w. rewrite <- E. apply H. Qed.

Lemma issues_for_each {A : Type} (l : list A) (body : A -> M client unit)
    (P : Call -> Prop) :
  (forall x, In x l -> issues (body x) P) -> issues (for_each client l body) P.
Proof.
  induction l as [|x l IH]; intros H; simpl.
  - apply issues_ret.
  - apply issues_bind.
    + apply H. left. reflexivity.
    + intros _. apply IH. intros y Hy. apply H. right. exact Hy.
Qed.

End Issues.

Create HintDb issues.
#[local] Hint Resolve issues_ret issues_lift issues_print : issues.

Section Provisioning.

Variable fs : FileSystem.
Variable pl : Polars.
Variable client : Client.
Variable self : ClickHouseImporter.

Lemma main_body_issues (t : string) (df : DataFrame) :
  issues (main_body pl client self (t, df)) (body_call pl self t df).
Proof.
  unfold main_body.
  apply issues_bind; [|intros _; apply issues_bind; [|intros present]].
  - destruct (full_refresh self) eqn:F; auto with issues.
    unfold drop_table. apply issues_bind; [|auto with issues].
    apply issues_execute. left. auto.
  - unfold check_table_exists. apply issues_bind; [|auto with issues].
    apply issues_execute. right. left. reflexivity.
  - apply issues_bind; [|intros _].
    + destruct present; simpl; auto with issues.
      destruct (generate_clickhouse_ddl_total df t) as [ddl G].
      rewrite G.
      apply (issues_ext client (create_table client t ddl)); [reflexivity|].
      unfold create_table. apply issues_bind; [|auto with issues].
      apply issues_execute. right. right. left. eauto.
    + destruct (str_in t (filter_tables self)) eqn:F; simpl;
        auto with issues.
      unfold import_dataset. apply issues_bind; [|auto with issues].
      apply issues_execute. right. right. right. auto.
Qed.

Lemma scan_step_issues (d : Dict.t DataFrame) (path : string) :
  issues (scan_step fs pl client d path) (fun _ => False).
Proof.
  unfold scan_step.
  destruct (is_file fs path); auto with issues.
  destruct (get_dataframe fs pl path _ _) as [e|dataset].
  - apply issues_bind; auto with issues.
  - destruct (generate_clickhouse_ddl dataset _);
      apply issues_bind; auto with issues.
Qed.

Lemma scan_issues (paths : list string) (d : Dict.t DataFrame) :
  issues (scan fs pl client paths d) (fun _ => False).
Proof.
  revert d. induction paths as [|p paths IH]; intros d; simpl.
  - auto with issues.
  - apply issues_bind; [apply scan_step_issues|auto].
Qed.

Lemma get_datasets_issues :
  issues (get_datasets fs pl client self) (fun _ => False).
Proof.
  unfold get_datasets. destruct (negb _).
  - unfold raise. auto with issues.
  - apply scan_issues.
Qed.

Lemma main_issues :
  issues (main fs pl client self)
         (fun c => exists t df, body_call pl self t df c).
Proof.
  unfold main. apply issues_bind.
  - eapply issues_weaken; [|apply get_datasets_issues]. intros c [].
  - intros datasets. apply issues_for_each. intros [t df] _.
    eapply issues_weaken; [|apply main_body_issues]. eauto.
Qed.

(** C7: without full refresh, when the existence probe reports the table
    present, the pass for that dataset makes the probe and, unless the
    table is excluded, the insert, and nothing else: no CREATE TABLE and
    no DROP TABLE reaches the store, so no schema is compared or changed. *)
Theorem C7_existing_table_trusted (t : string) (df : DataFrame)
    (w : World client)
    (s' : St client) (rows : list (list string)) :
  full_refresh self = false ->
  execute client (store w) (show_call t) = (s', Ok rows) ->
  rows <> [] ->
  let made :=
    show_call t
    :: (if str_in t (filter_tables self) then [] else [insert_call pl df t]) in
  calls (fst (main_body pl client self (t, df) w)) = (calls w ++ made)%list
  /\ forallb (fun c => negb (is_create c) && negb (is_drop c)) made = true.
Proof.
  intros Hfr Hshow Hrows made. subst made.
  rewrite main_body_run, Hfr, check_table_exists_run, Hshow.
  destruct rows as [|row rows]; [contradiction|]. simpl.
  destruct (str_in t (filter_tables self)); simpl.
  - auto.
  - rewrite import_dataset_run. simpl.
    destruct (execute client s' (insert_call pl df t)) as [s2 [e|r]]; simpl;
      rewrite <- app_assoc; auto.
Qed.

(** C5: a dataset whose table name is in the exclusion list is still
    provisioned (the drop under full refresh, the existence probe, the
    create when the probe finds nothing) and no call of its pass carries
    rows; over the whole run no insert is made into its table. *)
Theorem C5_excluded_never_inserted (t : string) :
  str_in t (filter_tables self) = true ->
  (forall (df : DataFrame) (w : World client),
      exists cs,
        calls (fst (main_body pl client self (t, df) w)) = (calls w ++ cs)%list
        /\ forallb (fun c => negb (is_insert c)) cs = true)
  /\ (forall (df : DataFrame) (w : World client),
        snd (main_body pl client self (t, df) w) = Ok tt ->
        exists s1 s2 rows ddl,
          (if full_refresh self
           then exists r, execute client (store w) (drop_call t) = (s1, Ok r)
           else s1 = store w)
          /\ execute client s1 (show_call t) = (s2, Ok rows)
          /\ generate_clickhouse_ddl df t = Ok ddl
          /\ calls (fst (main_body pl client self (t, df) w))
             = (calls w
                ++ (if full_refresh self then [drop_call t] else [])
                ++ [show_call t]
                ++ (if Nat.ltb 0 (List.length rows) then []
                    else [create_call ddl]))%list)
  /\ (forall w : World client,
        exists cs,
          calls (fst (main fs pl client self w)) = (calls w ++ cs)%list
          /\ forall rows,
              ~ In (mkCall ("INSERT INTO " ++ t ++ " VALUES") (Some rows)) cs).
Proof.
  intros Hex. split; [|split].
  - intros df w. destruct (main_body_issues t df w) as [cs [E F]].
    exists cs. split; [exact E|]. apply forallb_forall. intros c Hc.
    rewrite Forall_forall in F.
    destruct (F c Hc) as [[-> _]|[->|[[ddl [_ ->]]|[_ H]]]]; try reflexivity.
    congruence.
  - intros df w. rewrite main_body_run, Hex.
    destruct (generate_clickhouse_ddl_total df t) as [ddl G]. rewrite G.
    destruct (full_refresh self).
    + rewrite drop_table_run.
      destruct (execute client (store w) (drop_call t)) as [s1 [e|r]] eqn:D;
        simpl; [discriminate|].
      rewrite check_table_exists_run. simpl.
      destruct (execute client s1 (show_call t)) as [s2 [e|rows]] eqn:S;
        simpl; [discriminate|].
      destruct (Nat.ltb 0 (List.length rows)) eqn:L; simpl.
      * intros _. exists s1, s2, rows, ddl. rewrite L, <- !app_assoc.
        repeat split; eauto.
      * rewrite create_table_run. simpl.
        destruct (execute client s2 (create_call ddl)) as [s3 [e|r']];
          simpl; [discriminate|].
        intros _. exists s1, s2, rows, ddl. rewrite L, <- !app_assoc.
        repeat split; eauto.
    + rewrite check_table_exists_run. simpl.
      destruct (execute client (store w) (show_call t)) as [s2 [e|rows]] eqn:S;
        simpl; [discriminate|].
      destruct (Nat.ltb 0 (List.length rows)) eqn:L; simpl.
      * intros _. exists (store w), s2, rows, ddl. rewrite L.
        repeat split; eauto.
      * rewrite create_table_run. simpl.
        destruct (execute client s2 (create_call ddl)) as [s3 [e|r']];
          simpl; [discriminate|].
        intros _. exists (store w), s2, rows, ddl. rewrite L, <- !app_assoc.
        repeat split; eauto.
  - intros w. destruct (main_issues w) as [cs [E F]].
    exists cs. split; [exact E|]. intros rows Hin.
    rewrite Forall_forall in F.
    destruct (F _ Hin) as [t' [df' [[H _]|[H|[[ddl [_ H]]|[H Hf]]]]]];
      try discriminate H.
    injection H as Hq _. apply append_inj_r in Hq. congruence.
Qed.




End Provisioning.



Lemma C7_existing_table_trusted_witness :
  let self := importer (Some "data") false in
  let w := Demo.world Demo.memory Runs.old_accounts in
  let w' := fst (main_body Demo.pl Demo.memory self
                   ("accounts", Demo.accounts) w) in
  calls w' = [show_call "accounts"; insert_call Demo.pl Demo.accounts "accounts"]
  /\ store w'
     = [("accounts", ("CREATE TABLE accounts (id String) ENGINE = Memory", 8))].
Proof.
  intros self w w'. split; [|reflexivity].
  apply (C7_existing_table_trusted Demo.pl Demo.memory self
           "accounts" Demo.accounts w Runs.old_accounts [["accounts"]]).
  - reflexivity.
  - reflexivity.
  - discriminate.
Defined.

Lemma C5_excluded_never_inserted_witness :
  let self := importer (Some "data") true in
  let w := Demo.world Demo.memory [] in
  (exists cs,
      calls (fst (main_body Demo.pl Demo.memory self
                    ("train_fraud_labels", Demo.labels) w))
      = (calls w ++ cs)%list
      /\ forallb (fun c => negb (is_insert c)) cs = true)
  /\ calls (fst (main_body Demo.pl Demo.memory self
                   ("train_fraud_labels", Demo.labels) w))
     = [ drop_call "train_fraud_labels"; show_call "train_fraud_labels";
         create_call Runs.labels_ddl ]
  /\ exists cs,
      calls (fst (main Runs.files Demo.pl Demo.memory self w))
      = (calls w ++ cs)%list
      /\ forall rows,
          ~ In (mkCall "INSERT INTO train_fraud_labels VALUES" (Some rows)) cs.
Proof.
  intros self w.
  destruct (C5_excluded_never_inserted Runs.files Demo.pl Demo.memory self
              "train_fraud_labels" eq_refl) as [H1 [_ H3]].
  split; [apply H1|]. split; [reflexivity|]. apply H3.
Defined.

(* ================================================================== *)
(** ** Discovery: one dataset per stem *)

Module DictFacts.

Lemma get_set {V : Type} (d : Dict.t V) (k k' : string) (v : V) :
  Dict.get (Dict.set d k v) k'
  = if String.eqb k k' then Some v else Dict.get d k'.
Proof.
  induction d as [|[k0 v0] d IH]; simpl.
  - reflexivity.
  - destruct (String.eqb k0 k) eqn:E; simpl.
    + apply String.eqb_eq in E. subst k0.
      destruct (String.eqb k k'); reflexivity.
    + rewrite IH. destruct (String.eqb k0 k') eqn:E'; [|reflexivity].
      apply String.eqb_eq in E'. subst k0. now rewrite String.eqb_sym, E.
Qed.

Lemma keys_set {V : Type} (d : Dict.t V) (k : string) (v : V) :
  Dict.keys (Dict.set d k v)
  = if Dict.mem d k then Dict.keys d else (Dict.keys d ++ [k])%list.
Proof.
  unfold Dict.mem. induction d as [|[k0 v0] d IH]; simpl.
  - reflexivity.
  - destruct (String.eqb k0 k); simpl; [reflexivity|].
    rewrite IH. destruct (Dict.get d k); reflexivity.
Qed.

Lemma get_none_not_in {V : Type} (d : Dict.t V) (k : string) :
  Dict.get d k = None -> ~ In k (Dict.keys d).
Proof.
  induction d as [|[k0 v0] d IH]; simpl; [tauto|].
  destruct (String.eqb k0 k) eqn:E; [discriminate|].
  apply String.eqb_neq in E. intros H [H'|H']; [congruence|].
  apply (IH H H').
Qed.

Lemma nodup_set {V : Type} (d : Dict.t V) (k : string) (v : V) :
  NoDup (Dict.keys d) -> NoDup (Dict.keys (Dict.set d k v)).
Proof.
  intros H. rewrite keys_set. unfold Dict.mem.
  destruct (Dict.get d k) eqn:G; [exact H|].
  apply get_none_not_in in G.
  apply NoDup_app; [exact H|repeat constructor; simpl; tauto|].
  intros x Hx [<-|[]]. contradiction.
Qed.

End DictFacts.

Section Discovery.

Variable fs : FileSystem.
Variable pl : Polars.
Variable client : Client.
Variable self : ClickHouseImporter.

Lemma scan_step_dict (d : Dict.t DataFrame) (path : string) (w : World client) :
  snd (scan_step fs pl client d path w)
  = Ok (match read_as fs pl path with
        | Some (t, df) => Dict.set d t df
        | None => d
        end).
Proof.
  unfold scan_step, read_as.
  destruct (is_file fs path); [|reflexivity].
  destruct (get_dataframe fs pl path _ _) as [e|df]; [reflexivity|].
  destruct (generate_clickhouse_ddl df _); reflexivity.
Qed.

Lemma scan_dict (paths : list string) (d : Dict.t DataFrame) (w : World client) :
  exists d',
    snd (scan fs pl client paths d w) = Ok d'
    /\ (NoDup (Dict.keys d) -> NoDup (Dict.keys d'))
    /\ forall t, Dict.get d' t = last_read fs pl t paths (Dict.get d t).
Proof.
  revert d w. induction paths as [|path paths IH]; intros d w; simpl.
  - exists d. auto.
  - unfold bind. pose proof (scan_step_dict d path w) as Hs.
    destruct (scan_step fs pl client d path w) as [w1 [e|d1]];
      simpl in Hs; [discriminate|].
    injection Hs as ->.
    destruct (IH (match read_as fs pl path with
                  | Some (t, df) => Dict.set d t df
                  | None => d
                  end) w1) as [d' [E [Hnd Hget]]].
    exists d'. split; [exact E|]. split.
    + intros H. apply Hnd. destruct (read_as fs pl path) as [[t df]|]; [|exact H].
      apply DictFacts.nodup_set. exact H.
    + intros t. rewrite Hget. unfold last_read. simpl.
      destruct (read_as fs pl path) as [[t' df]|];
        [rewrite DictFacts.get_set|]; reflexivity.
Qed.

(** C10: the discovered datasets are keyed by file stem.  The mapping
    [get_datasets] returns has no table name twice; under each name it
    holds the dataset read last, along the walk, from a file of that
    stem; and [main] makes one pass of its loop per entry. *)
Theorem C10_one_dataset_per_stem (w : World client) (d : Dict.t DataFrame) :
  snd (get_datasets fs pl client self w) = Ok d ->
  NoDup (Dict.keys d)
  /\ (forall t,
        Dict.get d t = last_read fs pl t (rglob fs (data_path fs self)) None)
  /\ main fs pl client self w
     = for_each client (Dict.items d) (main_body pl client self)
         (fst (get_datasets fs pl client self w)).
Proof.
  intros H. split; [|split].
  - unfold get_datasets in H. destruct (negb _); [discriminate|].
    destruct (scan_dict (rglob fs (data_path fs self)) [] w)
      as [d' [E [Hnd _]]].
    rewrite E in H. injection H as <-. apply Hnd. constructor.
  - unfold get_datasets in H. destruct (negb _); [discriminate|].
    destruct (scan_dict (rglob fs (data_path fs self)) [] w)
      as [d' [E [_ Hget]]].
    rewrite E in H. injection H as <-. exact Hget.
  - unfold main, bind.
    destruct (get_datasets fs pl client self w) as [w0 [e|d0]];
      simpl in *; [discriminate|].
    injection H as ->. reflexivity.
Qed.

End Discovery.

Lemma C10_one_dataset_per_stem_witness :
  let files := Demo.fs ["data/old/accounts.csv"; "data/accounts.csv";
                        "data/accounts.txt"] in
  let self := importer (Some "data") false in
  let w := Demo.world Demo.memory [] in
  snd (get_datasets files Demo.pl Demo.memory self w)
  = Ok [("accounts", Demo.accounts)]
  /\ NoDup (Dict.keys [("accounts", Demo.accounts)])
  /\ read_as files Demo.pl "data/old/accounts.csv"
     = Some ("accounts", Demo.accounts_v2)
  /\ calls (fst (main files Demo.pl Demo.memory self w))
     = [ show_call "accounts"; create_call Runs.accounts_ddl;
         insert_call Demo.pl Demo.accounts "accounts" ].
Proof.
  intros files self w.
  pose proof (C10_one_dataset_per_stem files Demo.pl Demo.memory self w
                [("accounts", Demo.accounts)] eq_refl) as [Hnd [_ Hmain]].
  split; [reflexivity|]. split; [exact Hnd|]. split; [reflexivity|].
  rewrite Hmain. reflexivity.
Defined.

(* ================================================================== *)
(** ** Full refresh, run twice *)

Section Refresh.

Variable fs : FileSystem.
Variable pl : Polars.
Variable client : Client.
Variable self : ClickHouseImporter.

(** What the store holds, as the importer can tell: for each table name
    the statement that created it and the number of rows inserted. *)
Variable tables : St client -> string -> option (string * nat).

(** The exception the store answers an insert with, when the rows do not
    fit the declared column types. *)
Variable rejects : string -> list (list string) -> option Exn.

Lemma length_insert_rows (df : DataFrame) :
  List.length (insert_rows pl df) = height df.
Proof. unfold insert_rows, to_numpy. now rewrite !length_map, length_seq. Qed.













End Refresh.

(* ================================================================== *)
(** ** The in-memory store obeys the store laws *)

Module MemoryFacts.

Lemma get_remove {V : Type} (d : Dict.t V) (k u : string) :
  Dict.get (Demo.remove d k) u
  = if String.eqb k u then None else Dict.get d u.
Proof.
  induction d as [|[k0 v0] d IH]; simpl.
  - destruct (String.eqb k u); reflexivity.
  - destruct (String.eqb k0 k) eqn:E; simpl.
    + apply String.eqb_eq in E. subst k0. rewrite IH.
      destruct (String.eqb k u); reflexivity.
    + rewrite IH. destruct (String.eqb k0 u) eqn:E'; [|reflexivity].
      apply String.eqb_eq in E'. subst k0.
      now rewrite String.eqb_sym, E.
Qed.

Lemma unquote_quoted (t : string) : Demo.unquote (t ++ "'") = t.
Proof.
  unfold Demo.unquote. rewrite append_length. simpl.
  replace (String.length t + 1 - 1) with (String.length t) by lia.
  induction t as [|c t IH]; simpl; [reflexivity|]. now rewrite IH.
Qed.

Lemma first_word_app (t x : string) :
  Demo.first_word t = t -> Demo.first_word (t ++ String " "%char x) = t.
Proof.
  induction t as [|c t IH]; simpl; [reflexivity|].
  destruct (Ascii.eqb c " "%char); [discriminate|].
  intros H. injection H as H. now rewrite IH.
Qed.

Lemma run_drop (s : Demo.Tables) (t : string) :
  Demo.run false s (drop_call t) = (Demo.remove s t, Ok []).
Proof. reflexivity. Qed.

Lemma run_show (s : Demo.Tables) (t : string) :
  Demo.run false s (show_call t)
  = (s, Ok (if Dict.mem s t then [[t]] else [])).
Proof.
  unfold Demo.run, show_call. cbn [query].
  change (Demo.strip_prefix "SHOW TABLES LIKE '"
            ("SHOW TABLES LIKE '" ++ t ++ "'"))
    with (Some (t ++ "'")).
  cbv beta iota zeta. now rewrite unquote_quoted.
Qed.

Lemma run_create (s : Demo.Tables) (t cols : string) :
  Demo.first_word t = t ->
  Dict.get s t = None ->
  let ddl := "CREATE TABLE " ++ t ++ " (" ++ cols ++ ") ENGINE = Memory" in
  Demo.run false s (create_call ddl) = (Dict.set s t (ddl, 0), Ok []).
Proof.
  intros Hw Hg ddl. unfold Demo.run, create_call. cbn [query].
  change (Demo.strip_prefix "SHOW TABLES LIKE '" ddl) with (@None string).
  change (Demo.strip_prefix "DROP TABLE IF EXISTS " ddl) with (@None string).
  change (Demo.strip_prefix "CREATE TABLE " ddl)
    with (Some (t ++ String " "%char ("(" ++ cols ++ ") ENGINE = Memory"))).
  cbv beta iota zeta. rewrite (first_word_app _ _ Hw). unfold Dict.mem.
  now rewrite Hg.
Qed.

Lemma run_insert (s : Demo.Tables) (t ddl : string) (n : nat)
    (df : DataFrame) :
  Demo.first_word t = t ->
  Dict.get s t = Some (ddl, n) ->
  Demo.run false s (insert_call Demo.pl df t)
  = (Dict.set s t (ddl, n + List.length (insert_rows Demo.pl df)), Ok []).
Proof.
  intros Hw Hg. unfold Demo.run, insert_call. cbn [query params].
  change (Demo.strip_prefix "SHOW TABLES LIKE '"
            ("INSERT INTO " ++ t ++ " VALUES")) with (@None string).
  change (Demo.strip_prefix "DROP TABLE IF EXISTS "
            ("INSERT INTO " ++ t ++ " VALUES")) with (@None string).
  change (Demo.strip_prefix "CREATE TABLE "
            ("INSERT INTO " ++ t ++ " VALUES")) with (@None string).
  change (Demo.strip_prefix "INSERT INTO "
            ("INSERT INTO " ++ t ++ " VALUES"))
    with (Some (t ++ String " "%char "VALUES")).
  cbv beta iota zeta. rewrite (first_word_app _ _ Hw), Hg. reflexivity.
Qed.

(** The in-memory store obeys the laws for table names of one word. *)
Lemma memory_laws (d : Dict.t DataFrame) :
  (forall t df, In (t, df) d -> Demo.first_word t = t) ->
  store_laws Demo.pl Demo.memory (fun s t => Dict.get s t)
             (fun _ _ => None) d.
Proof.
  intros Hword s t df Hin. specialize (Hword t df Hin).
  split; [|split; [|split]].
  - exists (Demo.remove s t), []. split; [apply run_drop|].
    intros u. apply get_remove.
  - exists s, (if Dict.mem s t then [[t]] else []).
    split; [apply run_show|]. split; [reflexivity|].
    unfold Dict.mem. destruct (Dict.get s t); reflexivity.
  - intros Hg. exists (Dict.set s t (ddl_text df t, 0)), [].
    split; [|intros u; apply DictFacts.get_set].
    unfold ddl_text, generate_clickhouse_ddl.
    destruct (get_columns_from_df_total df) as [cols ->].
    apply (run_create s t cols Hword Hg).
  - intros ddl n Hg.
    exists (Dict.set s t (ddl, n + List.length (insert_rows Demo.pl df))).
    split; [|intros u; apply DictFacts.get_set].
    exists []. apply (run_insert s t ddl n df Hword Hg).
Qed.

End MemoryFacts.


(* ================================================================== *)
(** ** File names: table name and format tag *)

Module PathFacts.

Lemma substring_prefix (a x : string) :
  substring 0 (String.length a) (a ++ x) = a.
Proof.
  induction a as [|c a IH]; simpl.
  - destruct x; reflexivity.
  - now rewrite IH.
Qed.

Lemma substring_skip (a x : string) (m : nat) :
  substring (String.length a) m (a ++ x) = substring 0 m x.
Proof. induction a as [|c a IH]; simpl; [reflexivity|exact IH]. Qed.

Lemma substring_all (x : string) : substring 0 (String.length x) x = x.
Proof. induction x as [|c x IH]; simpl; [reflexivity|now rewrite IH]. Qed.

Lemma skip_prefix (a x : string) : Str.skip (String.length a) (a ++ x) = x.
Proof.
  unfold Str.skip. rewrite append_length, substring_skip.
  replace (String.length a + String.length x - String.length a)
    with (String.length x) by lia.
  apply substring_all.
Qed.

(** The last occurrence splits the string: nothing after it holds [c]. *)
Lemma rfind_split (c : ascii) (s : string) (i : nat) :
  Str.rfind c s = Some i ->
  exists a b,
    s = a ++ String c b /\ String.length a = i /\ Str.rfind c b = None.
Proof.
  revert i. induction s as [|ch s IH]; intros i H; simpl in H; [discriminate|].
  destruct (Str.rfind c s) as [i'|] eqn:R.
  - injection H as <-. destruct (IH i' eq_refl) as [a [b [-> [<- Hb]]]].
    exists (String ch a), b. auto.
  - destruct (Ascii.eqb ch c) eqn:E; [|discriminate].
    injection H as <-. apply Ascii.eqb_eq in E. subst ch.
    exists EmptyString, s. auto.
Qed.

Lemma lstrip_absent (c : ascii) (b : string) :
  Str.rfind c b = None -> Str.lstrip c b = b.
Proof.
  destruct b as [|ch b]; simpl; [reflexivity|].
  destruct (Str.rfind c b); [discriminate|].
  destruct (Ascii.eqb ch c); [discriminate|reflexivity].
Qed.

End PathFacts.

(** X1: the table name and the format tag of a path account for its file
    name.  Either the tag is empty and the table name is the whole file
    name (no dot, a dot only in front, or a dot at the end), or the file
    name is the table name, a dot and the tag, and the tag is not empty and
    holds no dot. *)
Theorem X1_stem_and_file_type (p : string) :
  (get_file_type p = "" /\ PurePath.stem p = PurePath.name p)
  \/ (PurePath.name p = PurePath.stem p ++ "." ++ get_file_type p
      /\ get_file_type p <> ""
      /\ Str.rfind "."%char (get_file_type p) = None).
Proof.
  unfold get_file_type, PurePath.suffix, PurePath.stem, PurePath.split_at.
  set (nm := PurePath.name p).
  destruct (Str.rfind "."%char nm) as [i|] eqn:R; [|left; auto].
  destruct (Nat.ltb 0 i && Nat.ltb i (String.length nm - 1)) eqn:B;
    [|left; auto].
  right. apply andb_prop in B. destruct B as [_ B]. apply Nat.ltb_lt in B.
  destruct (PathFacts.rfind_split _ _ _ R) as [a [b [E [La Hb]]]].
  rewrite E in *. subst i.
  rewrite PathFacts.skip_prefix, PathFacts.substring_prefix. simpl.
  rewrite (PathFacts.lstrip_absent _ _ Hb).
  repeat split; [|exact Hb].
  intros ->. rewrite append_length in B. simpl in B. lia.
Qed.

(* ================================================================== *)
(** ** The synthesizer reads the schema only *)

Lemma schema_get_schema_of (df1 df2 : DataFrame) (column : string) :
  schema_of df1 = schema_of df2 ->
  schema_get df1 column = schema_get df2 column.
Proof.
  revert df2. induction df1 as [|s1 df1 IH]; intros [|s2 df2] H;
    simpl in *; try discriminate; [reflexivity|].
  injection H as Hn Ht Hrest. rewrite Hn, Ht, (IH df2 Hrest). reflexivity.
Qed.

Lemma ddl_loop_schema_of (df1 df2 : DataFrame) (cols acc : list string) :
  schema_of df1 = schema_of df2 ->
  ddl_loop df1 cols acc = ddl_loop df2 cols acc.
Proof.
  intros H. revert acc. induction cols as [|c cols IH]; intros acc; simpl.
  - reflexivity.
  - rewrite (schema_get_schema_of df1 df2 c H).
    destruct (schema_get df2 c); [apply IH|reflexivity].
Qed.

(** X2: the statement generated for a table depends on the DataFrame only
    through its column names and types: two DataFrames of the same schema,
    whatever rows they hold, get the same CREATE TABLE statement. *)
Theorem X2_ddl_from_schema_only (df1 df2 : DataFrame) (table_name : string) :
  schema_of df1 = schema_of df2 ->
  generate_clickhouse_ddl df1 table_name
  = generate_clickhouse_ddl df2 table_name.
Proof.
  intros H. unfold generate_clickhouse_ddl, get_columns_from_df.
  assert (Hc : columns df1 = columns df2).
  { unfold columns. apply (f_equal (map fst)) in H. unfold schema_of in H.
    rewrite !map_map in H. exact H. }
  rewrite Hc, (ddl_loop_schema_of df1 df2 _ _ H). reflexivity.
Qed.

Lemma X2_ddl_from_schema_only_witness :
  generate_clickhouse_ddl Demo.accounts "accounts"
  = generate_clickhouse_ddl
      [ mkSeries "id" Int32 []; mkSeries "balance" Float32 [] ] "accounts".
Proof.
  apply (X2_ddl_from_schema_only Demo.accounts
           [ mkSeries "id" Int32 []; mkSeries "balance" Float32 [] ]
           "accounts").
  reflexivity.
Defined.

(* ================================================================== *)
(** ** The interpolation branch on other JSON *)

(** X4: in interpolation mode a file whose JSON value is not an object (a
    list of records, a string, a number) yields no table: the missing
    [keys] attribute is reported as a read failure naming the value's type. *)
Theorem X4_interpolation_needs_object (fs : FileSystem) (pl : Polars)
    (path tag : string) (v : PyVal) :
  str_in tag supported_tags = true ->
  json_load fs path = Ok v ->
  (forall data, v <> PyDict data) ->
  get_dataframe fs pl path tag true
  = Raise RuntimeError
      ("Failed to read dataset: '" ++ type_name v
       ++ "' object has no attribute 'keys'").
Proof.
  intros Htag Hload Hv. unfold get_dataframe.
  rewrite mem_supported_formats, Htag. simpl.
  unfold interpolate. rewrite Hload.
  destruct v; try reflexivity. exfalso. apply (Hv items). reflexivity.
Qed.

Lemma X4_interpolation_needs_object_witness :
  get_dataframe
    (mkFileSystem "" (fun _ => true) (fun _ => []) (fun _ => true)
       (fun _ => Ok (PyList [PyDict [("code", PyStr "5411")]])))
    Demo.pl "data/mcc_codes.json" "json" true
  = Raise RuntimeError
      "Failed to read dataset: 'list' object has no attribute 'keys'".
Proof.
  apply (X4_interpolation_needs_object
           (mkFileSystem "" (fun _ => true) (fun _ => []) (fun _ => true)
              (fun _ => Ok (PyList [PyDict [("code", PyStr "5411")]])))
           Demo.pl "data/mcc_codes.json" "json"
           (PyList [PyDict [("code", PyStr "5411")]])).
  - reflexivity.
  - reflexivity.
  - discriminate.
Defined.

(* ================================================================== *)
(** ** What an insert sends *)

Lemma insert_rows_nth (pl : Polars) (df : DataFrame) (i : nat) :
  i < height df ->
  nth i (insert_rows pl df) []
  = map (fun s => py_str pl (numpy_cast pl df (nth i (s_values s) PyNone))) df.
Proof.
  intros Hi. unfold insert_rows, to_numpy. rewrite !map_map.
  rewrite (nth_indep _ []
             (map (py_str pl)
                (map (fun s => numpy_cast pl df (nth 0 (s_values s) PyNone))
                   df))).
  - rewrite (map_nth (fun x => map (py_str pl)
                        (map (fun s => numpy_cast pl df
                                         (nth x (s_values s) PyNone)) df))).
    rewrite seq_nth by exact Hi. simpl. now rewrite map_map.
  - now rewrite length_map, length_seq.
Qed.

(** X5: [import_dataset] makes one call, the insert into the table, and
    sends with it one row per row of the DataFrame (none when it is empty),
    each with one string per column: the cell of row [i] and column [j] is
    [str] of the [i]-th value of the [j]-th column as the array of
    [to_numpy] holds it, cast to the one type of the array.  The line it
    prints reports the number of rows sent, and is printed only when the
    store accepted the insert. *)
Theorem X5_insert_payload (pl : Polars) (client : Client) (df : DataFrame)
    (t : string) (w : World client) :
  let w' := fst (import_dataset pl client df t w) in
  let sent := insert_rows pl df in
  calls w'
  = List.app (calls w)
      [mkCall ("INSERT INTO " ++ t ++ " VALUES") (Some sent)]
  /\ List.length sent = height df
  /\ Forall (fun row => List.length row = List.length (columns df)) sent
  /\ (forall i j,
        i < height df -> j < List.length df ->
        nth j (nth i sent []) ""
        = py_str pl
            (numpy_cast pl df
               (nth i (s_values (nth j df (mkSeries "" Null []))) PyNone)))
  /\ stdout w'
     = List.app (stdout w)
         match snd (import_dataset pl client df t w) with
         | inl _ => []
         | inr _ => ["Inserted " ++ Str.of_nat (List.length sent)
                     ++ " rows into " ++ t]
         end.
Proof.
  intros w' sent. subst w' sent.
  rewrite import_dataset_run, length_insert_rows.
  split; [|split; [|split; [|split]]].
  - destruct (execute client (store w) _) as [s' [e|r]]; reflexivity.
  - reflexivity.
  - unfold insert_rows, to_numpy, columns. rewrite map_map.
    apply Forall_forall. intros row Hrow. apply in_map_iff in Hrow.
    destruct Hrow as [i [<- _]]. now rewrite !length_map.
  - intros i j Hi Hj. rewrite (insert_rows_nth pl df i Hi).
    rewrite (nth_indep _ ""
               ((fun s => py_str pl (numpy_cast pl df (nth i (s_values s) PyNone)))
                  (mkSeries "" Null []))).
    + now rewrite (map_nth (fun s => py_str pl
                                       (numpy_cast pl df
                                          (nth i (s_values s) PyNone)))).
    + now rewrite length_map.
  - destruct (execute client (store w) _) as [s' [e|r]]; simpl.
    + now rewrite app_nil_r.
    + reflexivity.
Qed.

(* ================================================================== *)
(** ** Discovery in closed form *)

Section DiscoveryRun.

Variable fs : FileSystem.
Variable pl : Polars.
Variable client : Client.
Variable self : ClickHouseImporter.

Lemma scan_step_run (d : Dict.t DataFrame) (path : string) (w : World client) :
  scan_step fs pl client d path w
  = (mkWorld (store w) (calls w)
       (stdout w ++ (if is_file fs path then [scan_line fs pl path] else []))%list,
     Ok (found fs pl d path)).
Proof.
  unfold scan_step, found, read_as, scan_line, ddl_text.
  destruct (is_file fs path).
  - destruct (get_dataframe fs pl path _ _) as [e|df]; [reflexivity|].
    destruct (generate_clickhouse_ddl_total df (PurePath.stem path)) as [x ->].
    reflexivity.
  - destruct w. unfold ret. simpl. now rewrite app_nil_r.
Qed.

Lemma scan_run (paths : list string) (d : Dict.t DataFrame) (w : World client) :
  scan fs pl client paths d w
  = (mkWorld (store w) (calls w)
       (stdout w ++ map (scan_line fs pl) (filter (is_file fs) paths))%list,
     Ok (fold_left (found fs pl) paths d)).
Proof.
  revert d w. induction paths as [|path paths IH]; intros d w; simpl.
  - destruct w. unfold ret. simpl. now rewrite app_nil_r.
  - unfold bind. rewrite scan_step_run, IH. simpl.
    destruct (is_file fs path); simpl; rewrite <- app_assoc; reflexivity.
Qed.

Lemma get_datasets_discover (w : World client) (d : Dict.t DataFrame) :
  snd (get_datasets fs pl client self w) = Ok d ->
  d = fold_left (found fs pl) (rglob fs (data_path fs self)) [].
Proof.
  unfold get_datasets. destruct (negb _); [discriminate|].
  rewrite scan_run. simpl. congruence.
Qed.

Lemma mem_keys {V : Type} (d : Dict.t V) (k : string) :
  Dict.mem d k = str_in k (Dict.keys d).
Proof.
  unfold Dict.mem, str_in. induction d as [|[k0 v0] d IH]; simpl.
  - reflexivity.
  - rewrite (String.eqb_sym k k0). destruct (String.eqb k0 k); [reflexivity|].
    exact IH.
Qed.

Lemma keys_found (d : Dict.t DataFrame) (path : string) :
  Dict.keys (found fs pl d path)
  = first_seen (Dict.keys d) (read_stems fs pl [path]).
Proof.
  unfold found, read_stems. simpl.
  destruct (read_as fs pl path) as [[t df]|]; simpl; [|reflexivity].
  now rewrite DictFacts.keys_set, mem_keys.
Qed.

Lemma keys_discovered (paths : list string) (d : Dict.t DataFrame) :
  Dict.keys (fold_left (found fs pl) paths d)
  = first_seen (Dict.keys d) (read_stems fs pl paths).
Proof.
  revert d. induction paths as [|path paths IH]; intros d; simpl.
  - reflexivity.
  - rewrite IH, keys_found. unfold read_stems. simpl.
    destruct (read_as fs pl path) as [[t df]|]; reflexivity.
Qed.

Lemma in_first_seen (seen l : list string) (t : string) :
  In t (first_seen seen l) <-> In t seen \/ In t l.
Proof.
  revert seen. induction l as [|x l IH]; intros seen; simpl.
  - tauto.
  - rewrite IH. destruct (str_in x seen) eqn:E.
    + unfold str_in in E. apply existsb_exists in E.
      destruct E as [y [Hy E]]. apply String.eqb_eq in E. subst y.
      intuition (subst; auto).
    + rewrite in_app_iff. simpl. tauto.
Qed.

(** X6: when the data directory exists, discovery never raises, whatever
    the files hold: it leaves the store and the log of calls as they were,
    prints one line per regular file in the order of the walk (the DDL of a
    file read, the error of a file not read; nothing for a directory), and
    returns the mapping built from the files read. *)
Theorem X6_discovery_report (w : World client) :
  path_exists fs (data_path fs self) = true ->
  let paths := rglob fs (data_path fs self) in
  get_datasets fs pl client self w
  = (mkWorld (store w) (calls w)
       (stdout w ++ map (scan_line fs pl) (filter (is_file fs) paths))%list,
     Ok (fold_left (found fs pl) paths [])).
Proof.
  intros H paths. unfold get_datasets. rewrite H. simpl. apply scan_run.
Qed.

(** X7: a table name is discovered exactly when some file of the walk with
    that stem was read; a file that fails to read hides no other file. *)
Theorem X7_discovered_names (w : World client) (d : Dict.t DataFrame) :
  snd (get_datasets fs pl client self w) = Ok d ->
  forall t,
    In t (Dict.keys d)
    <-> exists path df,
          In path (rglob fs (data_path fs self))
          /\ read_as fs pl path = Some (t, df).
Proof.
  intros H t. rewrite (get_datasets_discover w d H), keys_discovered.
  rewrite in_first_seen. simpl. unfold read_stems. rewrite in_flat_map.
  split.
  - intros [[]|[path [Hp Ht]]]. exists path.
    destruct (read_as fs pl path) as [[t' df]|]; [|contradiction].
    destruct Ht as [->|[]]. eauto.
  - intros [path [df [Hp Hr]]]. right. exists path. rewrite Hr. simpl. auto.
Qed.

(** X8: the discovered tables are ordered by the first file of each stem
    that was read: a later file of the same stem replaces the dataset but
    not the place, and [main] provisions the tables in that order. *)
Theorem X8_discovery_order (w : World client) (d : Dict.t DataFrame) :
  snd (get_datasets fs pl client self w) = Ok d ->
  Dict.keys d
  = first_seen [] (read_stems fs pl (rglob fs (data_path fs self))).
Proof.
  intros H. rewrite (get_datasets_discover w d H). apply keys_discovered.
Qed.

End DiscoveryRun.

Lemma X6_discovery_report_witness :
  let run := get_datasets Walk.files Demo.pl Demo.memory Walk.self Walk.start in
  snd run = Ok Walk.datasets
  /\ calls (fst run) = []
  /\ store (fst run) = []
  /\ stdout (fst run)
     = [ scan_line Walk.files Demo.pl "data/old/accounts.csv";
         "Error processing notes: Unsupported file type: txt";
         scan_line Walk.files Demo.pl "data/train_fraud_labels.json";
         scan_line Walk.files Demo.pl "data/accounts.csv" ].
Proof.
  intros run. subst run.
  rewrite (X6_discovery_report Walk.files Demo.pl Demo.memory Walk.self
             Walk.start eq_refl).
  repeat split.
Defined.

Lemma X7_discovered_names_witness :
  In "accounts" (Dict.keys Walk.datasets)
  <-> exists path df,
        In path Walk.paths
        /\ read_as Walk.files Demo.pl path = Some ("accounts", df).
Proof.
  exact (X7_discovered_names Walk.files Demo.pl Demo.memory Walk.self
           Walk.start Walk.datasets eq_refl "accounts").
Defined.

Lemma X8_discovery_order_witness :
  Dict.keys Walk.datasets = ["accounts"; "train_fraud_labels"]
  /\ read_stems Walk.files Demo.pl Walk.paths
     = ["accounts"; "train_fraud_labels"; "accounts"].
Proof.
  split; [|reflexivity].
  rewrite (X8_discovery_order Walk.files Demo.pl Demo.memory Walk.self
             Walk.start Walk.datasets eq_refl).
  reflexivity.
Defined.

(* ================================================================== *)
(** ** What a run does and does not do *)

Section RunFacts.

Variable fs : FileSystem.
Variable pl : Polars.
Variable client : Client.
Variable self : ClickHouseImporter.

Lemma issues_nothing {A : Type} (m : M client A) (w : World client) :
  issues m (fun _ => False) -> calls (fst (m w)) = calls w.
Proof.
  intros H. destruct (H w) as [cs [E F]].
  destruct cs as [|c cs]; [now rewrite app_nil_r in E|].
  inversion F as [|? ? []].
Qed.

Lemma found_nothing (paths : list string) (d : Dict.t DataFrame) :
  (forall path, In path paths -> read_as fs pl path = None) ->
  fold_left (found fs pl) paths d = d.
Proof.
  revert d. induction paths as [|path paths IH]; intros d H; simpl.
  - reflexivity.
  - unfold found at 2. rewrite (H path (or_introl eq_refl)).
    apply IH. intros p Hp. apply H. right. exact Hp.
Qed.

Lemma ddl_is_create (df : DataFrame) (t ddl : string) :
  generate_clickhouse_ddl df t = Ok ddl ->
  is_create (create_call ddl) = true /\ is_drop (create_call ddl) = false.
Proof.
  unfold generate_clickhouse_ddl.
  destruct (get_columns_from_df df) as [e|cols]; [discriminate|].
  intros H. injection H as <-. split; [|reflexivity].
  unfold is_create, create_call. cbn [query].
  apply String.prefix_correct.
  apply (PathFacts.substring_prefix "CREATE TABLE ").
Qed.

(** X9: when the data directory does not exist, [main] raises the
    directory error naming the path as [Path] writes it (the default
    directory, or the given one without empty or [.] components and
    without a separator at the end), and nothing else happens: no call is
    made on the store and nothing is printed. *)
Theorem X9_missing_directory (w : World client) :
  path_exists fs (data_path fs self) = false ->
  main fs pl client self w
  = (w, Raise FileNotFoundError
          ("Data directory not found: " ++ data_path fs self)).
Proof.
  intros H. unfold main, bind, get_datasets, raise, lift. rewrite H.
  reflexivity.
Qed.

(** X10: when the directory exists and no path of the walk is read (an
    empty directory, sub-directories only, or only files the reader fails
    on), [main] ends without error and without a single call on the store. *)
Theorem X10_nothing_to_load (w : World client) :
  path_exists fs (data_path fs self) = true ->
  (forall path, In path (rglob fs (data_path fs self)) ->
                read_as fs pl path = None) ->
  let run := main fs pl client self w in
  snd run = Ok tt /\ calls (fst run) = calls w /\ store (fst run) = store w.
Proof.
  intros He Hnone run. subst run. unfold main, bind, get_datasets.
  rewrite He. simpl. rewrite scan_run, (found_nothing _ _ Hnone). simpl.
  auto.
Qed.

(** X11: every call [main] makes on the store belongs to the pass of a
    discovered dataset: it is the drop, the probe, the create or the insert
    of a table named after a file that was read, never of another table. *)
Theorem X11_only_discovered_tables (w : World client) (d : Dict.t DataFrame) :
  snd (get_datasets fs pl client self w) = Ok d ->
  exists cs,
    calls (fst (main fs pl client self w)) = (calls w ++ cs)%list
    /\ Forall (fun c => exists t df, In (t, df) d /\ body_call pl self t df c)
              cs.
Proof.
  intros H. unfold main, bind.
  pose proof (issues_nothing _ w (get_datasets_issues fs pl client self)) as Hc.
  destruct (get_datasets fs pl client self w) as [w0 [e|d0]];
    simpl in H, Hc; [discriminate|].
  injection H as ->. rewrite <- Hc.
  apply (issues_for_each client (Dict.items d) (main_body pl client self)).
  intros [t df] Hin.
  eapply issues_weaken; [|apply main_body_issues]. simpl. eauto.
Qed.

(** X12: without full refresh [main] never drops a table. *)
Theorem X12_no_drop_without_refresh (w : World client) :
  full_refresh self = false ->
  exists cs,
    calls (fst (main fs pl client self w)) = (calls w ++ cs)%list
    /\ Forall (fun c => is_drop c = false) cs.
Proof.
  intros Hfr. destruct (main_issues fs pl client self w) as [cs [E F]].
  exists cs. split; [exact E|]. eapply Forall_impl; [|exact F].
  intros c [t [df [[_ H]|[->|[[ddl [G ->]]|[-> _]]]]]].
  - congruence.
  - reflexivity.
  - apply (ddl_is_create df t ddl G).
  - reflexivity.
Qed.

End RunFacts.

Lemma X9_missing_directory_witness :
  main (Demo.fs []) Demo.pl Demo.memory (importer (Some "./missing/") true)
       Walk.start
  = (Walk.start, Raise FileNotFoundError "Data directory not found: missing").
Proof.
  exact (X9_missing_directory (Demo.fs []) Demo.pl Demo.memory
           (importer (Some "./missing/") true) Walk.start eq_refl).
Defined.

Lemma X10_nothing_to_load_witness :
  let files := Demo.fs ["data/old"; "data/notes.txt"; "data/archive.tar.gz"] in
  let run := main files Demo.pl Demo.memory Walk.self Walk.start in
  snd run = Ok tt /\ calls (fst run) = [] /\ store (fst run) = [].
Proof.
  intros files.
  apply (X10_nothing_to_load files Demo.pl Demo.memory Walk.self Walk.start).
  - reflexivity.
  - intros path [<-|[<-|[<-|[]]]]; reflexivity.
Defined.

Lemma X11_only_discovered_tables_witness :
  exists cs,
    calls (fst (main Walk.files Demo.pl Demo.memory Walk.self Walk.start))
    = ([] ++ cs)%list
    /\ Forall (fun c => exists t df,
                   In (t, df) Walk.datasets
                   /\ body_call Demo.pl Walk.self t df c) cs.
Proof.
  exact (X11_only_discovered_tables Walk.files Demo.pl Demo.memory Walk.self
           Walk.start Walk.datasets eq_refl).
Defined.

Lemma X12_no_drop_without_refresh_witness :
  exists cs,
    calls (fst (main Walk.files Demo.pl Demo.memory Walk.self Walk.start))
    = ([] ++ cs)%list
    /\ Forall (fun c => is_drop c = false) cs.
Proof.
  exact (X12_no_drop_without_refresh Walk.files Demo.pl Demo.memory Walk.self
           Walk.start eq_refl).
Defined.

Section PassFacts.

Variable pl : Polars.
Variable client : Client.
Variable self : ClickHouseImporter.

(** X13: a pass of the loop body that ends without error made its calls in
    this order: the drop when full refresh is on, the probe, the create
    with the synthesized statement when the probe returned no row, the
    insert unless the table is excluded; and it printed one status line for
    each of the drop, the create and the insert, in that order. *)
Theorem X13_successful_pass (t : string) (df : DataFrame) (w : World client) :
  snd (main_body pl client self (t, df) w) = Ok tt ->
  exists s1 s2 rows ddl,
    (if full_refresh self
     then exists r, execute client (store w) (drop_call t) = (s1, Ok r)
     else s1 = store w)
    /\ execute client s1 (show_call t) = (s2, Ok rows)
    /\ generate_clickhouse_ddl df t = Ok ddl
    /\ calls (fst (main_body pl client self (t, df) w))
       = (calls w
          ++ (if full_refresh self then [drop_call t] else [])
          ++ [show_call t]
          ++ (if Nat.ltb 0 (List.length rows) then [] else [create_call ddl])
          ++ (if str_in t (filter_tables self) then []
              else [insert_call pl df t]))%list
    /\ stdout (fst (main_body pl client self (t, df) w))
       = List.app (stdout w)
           (List.app
              (if full_refresh self then ["Dropped table " ++ t] else [])
              (List.app
                 (if Nat.ltb 0 (List.length rows) then []
                  else ["Created table " ++ t])
                 (if str_in t (filter_tables self) then []
                  else ["Inserted " ++ Str.of_nat (height df)
                        ++ " rows into " ++ t]))).
Proof.
  rewrite main_body_run.
  destruct (generate_clickhouse_ddl_total df t) as [ddl G]. rewrite G.
  assert (Hrest : forall (w1 : World client),
    snd (match check_table_exists client t w1 with
         | (w2, inl e) => (w2, inl e)
         | (w2, inr present) =>
             match (if present then (w2, Ok tt)
                    else create_table client t ddl w2) with
             | (w3, inl e) => (w3, inl e)
             | (w3, inr _) =>
                 if str_in t (filter_tables self) then (w3, Ok tt)
                 else import_dataset pl client df t w3
             end
         end) = Ok tt ->
    exists s2 rows,
      execute client (store w1) (show_call t) = (s2, Ok rows)
      /\ calls (fst (match check_table_exists client t w1 with
                     | (w2, inl e) => (w2, inl e)
                     | (w2, inr present) =>
                         match (if present then (w2, Ok tt)
                                else create_table client t ddl w2) with
                         | (w3, inl e) => (w3, inl e)
                         | (w3, inr _) =>
                             if str_in t (filter_tables self) then (w3, Ok tt)
                             else import_dataset pl client df t w3
                         end
                     end))
         = (calls w1
            ++ [show_call t]
            ++ (if Nat.ltb 0 (List.length rows) then [] else [create_call ddl])
            ++ (if str_in t (filter_tables self) then []
                else [insert_call pl df t]))%list
      /\ stdout (fst (match check_table_exists client t w1 with
                      | (w2, inl e) => (w2, inl e)
                      | (w2, inr present) =>
                          match (if present then (w2, Ok tt)
                                 else create_table client t ddl w2) with
                          | (w3, inl e) => (w3, inl e)
                          | (w3, inr _) =>
                              if str_in t (filter_tables self) then (w3, Ok tt)
                              else import_dataset pl client df t w3
                          end
                      end))
         = List.app (stdout w1)
             (List.app
                (if Nat.ltb 0 (List.length rows) then []
                 else ["Created table " ++ t])
                (if str_in t (filter_tables self) then []
                 else ["Inserted " ++ Str.of_nat (height df)
                       ++ " rows into " ++ t]))).
  { intros w1. rewrite check_table_exists_run.
    destruct (execute client (store w1) (show_call t)) as [s2 [e|rows]] eqn:S;
      simpl; [discriminate|].
    destruct (Nat.ltb 0 (List.length rows)) eqn:L; simpl.
    - destruct (str_in t (filter_tables self)); simpl.
      + intros _. exists s2, rows. rewrite L, !app_nil_r. auto.
      + rewrite import_dataset_run. simpl.
        destruct (execute client s2 (insert_call pl df t)) as [s4 [e|r]];
          simpl; [discriminate|].
        intros _. exists s2, rows. rewrite L, <- !app_assoc. auto.
    - rewrite create_table_run. simpl.
      destruct (execute client s2 (create_call ddl)) as [s3 [e|r]];
        simpl; [discriminate|].
      destruct (str_in t (filter_tables self)); simpl.
      + intros _. exists s2, rows. rewrite L, <- !app_assoc. auto.
      + rewrite import_dataset_run. simpl.
        destruct (execute client s3 (insert_call pl df t)) as [s4 [e|r']];
          simpl; [discriminate|].
        intros _. exists s2, rows. rewrite L, <- !app_assoc. auto. }
  destruct (full_refresh self).
  - rewrite drop_table_run.
    destruct (execute client (store w) (drop_call t)) as [s1 [e|r]] eqn:D;
      [simpl; discriminate|cbn iota beta].
    intros H. destruct (Hrest _ H) as [s2 [rows [S [Ec Es]]]].
    exists s1, s2, rows, ddl. cbn [store calls stdout] in S, Ec, Es.
    split; [eauto|]. split; [exact S|]. split; [reflexivity|]. split.
    + etransitivity; [exact Ec|]. now rewrite <- !app_assoc.
    + etransitivity; [exact Es|]. now rewrite <- !app_assoc.
  - cbn iota beta.
    intros H. destruct (Hrest _ H) as [s2 [rows [S [Ec Es]]]].
    exists (store w), s2, rows, ddl.
    split; [reflexivity|]. split; [exact S|]. split; [reflexivity|]. split.
    + exact Ec.
    + exact Es.
Qed.

(** X14: without full refresh a pass only adds.  With a store that obeys
    the store laws and accepts the rows, the pass ends without error; a
    table already there keeps the statement that created it and gains the
    rows of the dataset (so a second run loads them a second time), a table
    not yet there is created from the synthesized statement and holds
    them; an excluded table gains none; no other table changes. *)
Theorem X14_append_without_refresh
    (tables : St client -> string -> option (string * nat))
    (rejects : string -> list (list string) -> option Exn)
    (d : Dict.t DataFrame) (t : string) (df : DataFrame) (w : World client) :
  full_refresh self = false ->
  store_laws pl client tables rejects d ->
  In (t, df) d ->
  (forall ddl, rejects ddl (insert_rows pl df) = None) ->
  let added := if str_in t (filter_tables self) then 0 else height df in
  exists w',
    main_body pl client self (t, df) w = (w', Ok tt)
    /\ forall u,
        tables (store w') u
        = if String.eqb t u
          then Some (match tables (store w) t with
                     | Some (ddl0, n0) => (ddl0, n0 + added)
                     | None => (ddl_text df t, added)
                     end)
          else tables (store w) u.
Proof.
  intros Hfr Hlaws Hin Hacc added. subst added.
  rewrite main_body_run, Hfr, check_table_exists_run.
  destruct (Hlaws (store w) t df Hin) as [_ [[s2 [r2 [S [HS HL]]]] _]].
  rewrite S. cbn iota beta. rewrite HL.
  assert (G : generate_clickhouse_ddl df t = Ok (ddl_text df t)).
  { unfold ddl_text. destruct (generate_clickhouse_ddl_total df t) as [x ->].
    reflexivity. }
  destruct (tables (store w) t) as [[ddl0 n0]|] eqn:T.
  - destruct (str_in t (filter_tables self)).
    + eexists. split; [reflexivity|]. intros u. cbn [store fst]. rewrite HS.
      destruct (String.eqb t u) eqn:E; [|reflexivity].
      apply String.eqb_eq in E. subst u. now rewrite T, Nat.add_0_r.
    + rewrite import_dataset_run. cbn [store].
      destruct (Hlaws s2 t df Hin) as [_ [_ [_ I]]].
      destruct (I ddl0 n0) as [s4 HI]; [now rewrite HS|].
      rewrite Hacc in HI. destruct HI as [[r4 I4] H4]. rewrite I4.
      eexists. split; [reflexivity|]. intros u. cbn [store fst].
      rewrite H4, length_insert_rows, HS. reflexivity.
  - rewrite G, create_table_run. cbn [store].
    destruct (Hlaws s2 t df Hin) as [_ [_ [C _]]].
    destruct C as [s3 [r3 [C HC]]]; [now rewrite HS|].
    rewrite C. cbn iota beta.
    destruct (str_in t (filter_tables self)).
    + eexists. split; [reflexivity|]. intros u. cbn [store fst].
      rewrite HC, HS. reflexivity.
    + rewrite import_dataset_run. cbn [store].
      destruct (Hlaws s3 t df Hin) as [_ [_ [_ I]]].
      destruct (I (ddl_text df t) 0) as [s4 HI].
      { now rewrite HC, String.eqb_refl. }
      rewrite Hacc in HI. destruct HI as [[r4 I4] H4]. rewrite I4.
      eexists. split; [reflexivity|]. intros u. cbn [store fst].
      rewrite H4, length_insert_rows, HC, HS.
      destruct (String.eqb t u); reflexivity.
Qed.

End PassFacts.

Lemma X13_successful_pass_witness :
  let self := importer (Some "data") true in
  let w := Demo.world Demo.memory Runs.old_accounts in
  let w' := fst (main_body Demo.pl Demo.memory self
                   ("accounts", Demo.accounts) w) in
  calls w'
  = [ drop_call "accounts"; show_call "accounts";
      create_call Runs.accounts_ddl;
      insert_call Demo.pl Demo.accounts "accounts" ]
  /\ stdout w'
     = [ "Dropped table accounts"; "Created table accounts";
         "Inserted 3 rows into accounts" ].
Proof.
  intros self w w'.
  destruct (X13_successful_pass Demo.pl Demo.memory self "accounts"
              Demo.accounts w eq_refl)
    as [s1 [s2 [rows [ddl [D [S [G [Ec Es]]]]]]]].
  change (exists r, Demo.run false Runs.old_accounts (drop_call "accounts")
                    = (s1, Ok r)) in D.
  destruct D as [r D]. rewrite MemoryFacts.run_drop in D.
  injection D as <- _.
  change (Demo.run false [] (show_call "accounts") = (s2, Ok rows)) in S.
  rewrite MemoryFacts.run_show in S. injection S as _ <-.
  injection G as <-.
  split; [exact Ec|exact Es].
Defined.

Lemma X14_append_without_refresh_witness :
  let self := importer (Some "data") false in
  let w := Demo.world Demo.memory Runs.old_accounts in
  exists w',
    main_body Demo.pl Demo.memory self ("accounts", Demo.accounts) w
    = (w', Ok tt)
    /\ Dict.get (store w') "accounts"
       = Some ("CREATE TABLE accounts (id String) ENGINE = Memory", 8).
Proof.
  intros self w.
  assert (Hlaws : store_laws Demo.pl Demo.memory (fun s t => Dict.get s t)
                    (fun _ _ => None) [("accounts", Demo.accounts)]).
  { apply MemoryFacts.memory_laws. intros t df [H|[]].
    injection H as <- _. reflexivity. }
  destruct (X14_append_without_refresh Demo.pl Demo.memory self
              (fun s t => Dict.get s t) (fun _ _ => None)
              [("accounts", Demo.accounts)] "accounts" Demo.accounts w
              eq_refl Hlaws (or_introl eq_refl) (fun _ => eq_refl))
    as [w' [E H]].
  exists w'. split; [exact E|]. rewrite H. reflexivity.
Defined.

(* ================================================================== *)
(** ** A run without error: one pass per dataset, in order *)

Section Passes.

Variable fs : FileSystem.
Variable pl : Polars.
Variable client : Client.
Variable self : ClickHouseImporter.

Lemma main_body_probes (t : string) (df : DataFrame) (w : World client) :
  snd (main_body pl client self (t, df) w) = Ok tt ->
  exists cs,
    calls (fst (main_body pl client self (t, df) w)) = (calls w ++ cs)%list
    /\ pass_of pl self (t, df) cs.
Proof.
  intros Hok. destruct (main_body_issues pl client self t df w) as [cs [E F]].
  exists cs. split; [exact E|]. split; [|exact F]. simpl.
  revert Hok E. rewrite main_body_run.
  assert (Hgrow : forall (m : M client unit) (w1 : World client) (pre : list Call),
             issues m (fun _ => True) ->
             calls w1 = (calls w ++ pre)%list ->
             In (show_call t) pre ->
             calls (fst (m w1)) = (calls w ++ cs)%list ->
             In (show_call t) cs).
  { intros m w1 pre Hm Hw1 Hin Hc. destruct (Hm w1) as [cs' [E' _]].
    rewrite E', Hw1, <- app_assoc in Hc. apply app_inv_head in Hc.
    subst cs. apply in_or_app. left. exact Hin. }
  assert (Hafter : forall w1 : World client,
    (exists pre, calls w1 = (calls w ++ pre)%list) ->
    snd (match check_table_exists client t w1 with
         | (w2, inl e) => (w2, inl e)
         | (w2, inr present) =>
             match (if present then (w2, Ok tt)
                    else match generate_clickhouse_ddl df t with
                         | inl e => (w2, inl e)
                         | inr ddl => create_table client t ddl w2
                         end) with
             | (w3, inl e) => (w3, inl e)
             | (w3, inr _) =>
                 if str_in t (filter_tables self) then (w3, Ok tt)
                 else import_dataset pl client df t w3
             end
         end) = Ok tt ->
    calls (fst (match check_table_exists client t w1 with
                | (w2, inl e) => (w2, inl e)
                | (w2, inr present) =>
                    match (if present then (w2, Ok tt)
                           else match generate_clickhouse_ddl df t with
                                | inl e => (w2, inl e)
                                | inr ddl => create_table client t ddl w2
                                end) with
                    | (w3, inl e) => (w3, inl e)
                    | (w3, inr _) =>
                        if str_in t (filter_tables self) then (w3, Ok tt)
                        else import_dataset pl client df t w3
                    end
                end)) = (calls w ++ cs)%list ->
    In (show_call t) cs).
  { intros w1 [pre Hpre]. rewrite check_table_exists_run.
    destruct (execute client (store w1) (show_call t)) as [s2 [e|rows]];
      [simpl; discriminate|]. cbn iota beta.
    set (w2 := mkWorld s2 (calls w1 ++ [show_call t])%list (stdout w1)).
    assert (Hw2 : calls w2 = (calls w ++ (pre ++ [show_call t]))%list).
    { unfold w2. simpl. now rewrite Hpre, app_assoc. }
    assert (Hin : In (show_call t) (pre ++ [show_call t])).
    { apply in_or_app. right. left. reflexivity. }
    clearbody w2.
    intros _.
    apply (Hgrow (fun w2 =>
             match (if Nat.ltb 0 (List.length rows) then (w2, Ok tt)
                    else match generate_clickhouse_ddl df t with
                         | inl e => (w2, inl e)
                         | inr ddl => create_table client t ddl w2
                         end) with
             | (w3, inl e) => (w3, inl e)
             | (w3, inr _) =>
                 if str_in t (filter_tables self) then (w3, Ok tt)
                 else import_dataset pl client df t w3
             end) w2 (pre ++ [show_call t])%list); [|exact Hw2|exact Hin].
    apply (issues_ext client
             (bind client
                (if Nat.ltb 0 (List.length rows) then ret client tt
                 else bind client (lift client (generate_clickhouse_ddl df t))
                        (fun ddl => create_table client t ddl))
                (fun _ => if str_in t (filter_tables self) then ret client tt
                          else import_dataset pl client df t))).
    - intros w0. unfold bind, ret, lift.
      destruct (Nat.ltb 0 (List.length rows));
        [destruct (str_in t (filter_tables self)); reflexivity|].
      destruct (generate_clickhouse_ddl df t) as [e|ddl]; [reflexivity|].
      destruct (create_table client t ddl w0) as [w3 [e|[]]]; [reflexivity|].
      destruct (str_in t (filter_tables self)); reflexivity.
    - apply issues_bind.
      + destruct (Nat.ltb 0 (List.length rows)); [apply issues_ret|].
        apply issues_bind; [apply issues_lift|]. intros ddl.
        unfold create_table. apply issues_bind; [|intros; apply issues_print].
        apply issues_execute. exact I.
      + intros _. destruct (str_in t (filter_tables self)); [apply issues_ret|].
        unfold import_dataset. apply issues_bind; [|intros; apply issues_print].
        apply issues_execute. exact I. }
  destruct (full_refresh self).
  - rewrite drop_table_run.
    destruct (execute client (store w) (drop_call t)) as [s1 [e|r]];
      [simpl; discriminate|]. cbn iota beta.
    apply Hafter. exists [drop_call t]. reflexivity.
  - cbn iota beta. apply Hafter. exists []. simpl. now rewrite app_nil_r.
Qed.

Lemma for_each_passes (items : list (string * DataFrame)) (w : World client) :
  snd (for_each client items (main_body pl client self) w) = Ok tt ->
  exists css,
    calls (fst (for_each client items (main_body pl client self) w))
    = (calls w ++ List.concat css)%list
    /\ Forall2 (pass_of pl self) items css.
Proof.
  revert w. induction items as [|[t df] rest IH]; intros w.
  - intros _. exists []. simpl. rewrite app_nil_r. auto.
  - cbn [for_each]. unfold bind.
    pose proof (main_body_probes t df w) as Hp.
    destruct (main_body pl client self (t, df) w) as [w1 [e|[]]];
      cbn [fst snd] in *; [intros H; discriminate H|].
    intros Hok. destruct (Hp eq_refl) as [cs [E P]].
    destruct (IH w1 Hok) as [css [E' F']].
    exists (cs :: css). simpl. rewrite E', E, <- app_assoc.
    split; [reflexivity|]. constructor; assumption.
Qed.

(** X15: in a run that ends without error the calls on the store fall into
    consecutive blocks, one per discovered dataset and in the order of
    discovery: each block holds the probe of its table and only calls of
    that dataset, so every discovered table is probed and the passes do not
    interleave. *)
Theorem X15_one_pass_per_dataset (w : World client) (d : Dict.t DataFrame) :
  snd (get_datasets fs pl client self w) = Ok d ->
  snd (main fs pl client self w) = Ok tt ->
  exists css,
    calls (fst (main fs pl client self w)) = (calls w ++ List.concat css)%list
    /\ Forall2 (pass_of pl self) (Dict.items d) css.
Proof.
  unfold main, bind.
  pose proof (issues_nothing client _ w (get_datasets_issues fs pl client self))
    as Hc.
  destruct (get_datasets fs pl client self w) as [w0 [e|d0]];
    simpl in *; [intros H; discriminate H|].
  intros H Hok. injection H as ->. rewrite <- Hc.
  apply for_each_passes. exact Hok.
Qed.

End Passes.

Lemma X15_one_pass_per_dataset_witness :
  exists css,
    calls (fst (main Walk.files Demo.pl Demo.memory Walk.self Walk.start))
    = ([] ++ List.concat css)%list
    /\ Forall2 (pass_of Demo.pl Walk.self) Walk.datasets css.
Proof.
  exact (X15_one_pass_per_dataset Walk.files Demo.pl Demo.memory Walk.self
           Walk.start Walk.datasets eq_refl eq_refl).
Defined.
